(** * haystackapi: scalar data types, CSV cell parser and format negotiation

    A shallow embedding of
      - [haystackapi/datatypes.py] (Quantity, Coordinate, Uri, Bin, XStr,
        the singletons and Ref),
      - [haystackapi/csvparser.py] ([parse_scalar], [parse_grid]),
      - [haystackapi/ops.py] ([_dump_response], [_format_response],
        [_manage_exception], [about], [ops] and the choice of a content
        encoding),
      - [app/graphql_model.py] ([_filter_id]),
    together with the part of the Python object protocol these depend on
    (rich comparison dispatch, [copy.copy], the built-in [hash],
    exceptions).

    Conventions.
      - A Python [str] is a Rocq [string] holding its UTF-8 bytes.  Every
        string operation used by the sources ([==], [<], [s[0]], [s[1:]],
        [split(' ', 1)], the character class of a regular expression over
        ASCII) gives the same answer on code points and on UTF-8 bytes.
      - A Python [float] is a primitive binary64 [float].
      - Code that can raise returns a [result]; the exception classes are
        those the sources raise. *)

From Stdlib Require Import ZArith QArith Floats String Ascii List Bool Lia.
From Stdlib Require Import Sorted Permutation.
From stdpp Require Import gmap strings.
Import ListNotations.

Local Open Scope string_scope.
Local Open Scope Z_scope.

(** ** Exceptions and fallible computations *)

Inductive exn : Type :=
| AssertionError
| TypeError
| ZincParseException
| StopIteration
| HttpError (error : Z)
| OtherError (name : string).

Inductive result (A : Type) : Type :=
| Ok (a : A)
| Raise (e : exn).

Arguments Ok {A} a.
Arguments Raise {A} e.

Definition bind {A B : Type} (r : result A) (k : A -> result B) : result B :=
  match r with
  | Ok a => k a
  | Raise e => Raise e
  end.

#[global] Instance result_mbind : MBind result :=
  fun A B k r => bind r k.
#[global] Instance result_mret : MRet result := fun A a => Ok a.

Definition raises {A : Type} (r : result A) : bool :=
  match r with Ok _ => false | Raise _ => true end.

(** ** Rich comparison operators *)

Inductive cmpop : Type := Py_LT | Py_LE | Py_EQ | Py_NE | Py_GT | Py_GE.

(** [_Py_SwappedOp]: the reflected operator. *)
Definition swapped_op (op : cmpop) : cmpop :=
  match op with
  | Py_LT => Py_GT | Py_LE => Py_GE
  | Py_EQ => Py_EQ | Py_NE => Py_NE
  | Py_GT => Py_LT | Py_GE => Py_LE
  end.

(** A comparison method returns a truth value or [NotImplemented]. *)
Inductive cmpres : Type :=
| NotImplemented
| Truth (b : bool).

(** ** String-like scalars: [str], [Uri], [Bin] *)

Module StrTypes.

(** The three classes; [Uri] and [Bin] derive from [six.text_type]. *)
Inductive str_class : Type := cls_str | cls_Uri | cls_Bin.

Definition str_class_eqb (c d : str_class) : bool :=
  match c, d with
  | cls_str, cls_str | cls_Uri, cls_Uri | cls_Bin, cls_Bin => true
  | _, _ => false
  end.

(** An instance: its class, its identity and its text. *)
Record pystr : Type := mk_pystr {
  ob_type : str_class;
  ob_id : nat;
  text : string
}.

(** [PyType_IsSubtype a b]. *)
Definition issubtype (a b : str_class) : bool :=
  match b with
  | cls_str => true
  | _ => str_class_eqb a b
  end.

Definition isinstance (o : pystr) (c : str_class) : bool :=
  issubtype (ob_type o) c.

(** [v is w]. *)
Definition py_is (v w : pystr) : bool := Nat.eqb (ob_id v) (ob_id w).

(** [str]'s own rich comparison: both operands are unicode objects
    (instances of [str] or of a subclass), so the texts are compared. *)
Definition unicode_richcompare (v w : pystr) (op : cmpop) : cmpres :=
  Truth
    match op with
    | Py_EQ => String.eqb (text v) (text w)
    | Py_NE => negb (String.eqb (text v) (text w))
    | Py_LT => String.ltb (text v) (text w)
    | Py_LE => String.leb (text v) (text w)
    | Py_GT => String.ltb (text w) (text v)
    | Py_GE => String.leb (text w) (text v)
    end.

(** [Uri.__eq__]. *)
Definition Uri___eq__ (self other : pystr) : cmpres :=
  if negb (isinstance other cls_Uri) then NotImplemented
  else unicode_richcompare self other Py_EQ.

(** [Bin.__eq__]. *)
Definition Bin___eq__ (self other : pystr) : cmpres :=
  if negb (isinstance other cls_Bin) then NotImplemented
  else unicode_richcompare self other Py_EQ.

(** Method resolution for the comparison slot of a class: [Uri] and [Bin]
    define [__eq__] only; every other comparison method, [__ne__]
    included, is found on [str]. *)
Definition tp_richcompare (c : str_class) (v w : pystr) (op : cmpop)
  : cmpres :=
  match c, op with
  | cls_Uri, Py_EQ => Uri___eq__ v w
  | cls_Bin, Py_EQ => Bin___eq__ v w
  | _, _ => unicode_richcompare v w op
  end.

(** The interpreter's dispatch for [v op w] ([do_richcompare]): the right
    operand goes first when its class is a proper subclass of the left
    one's, then the left operand, then the reflected method of the right
    operand; when all answer [NotImplemented], [==] and [!=] fall back on
    identity and the order operators raise [TypeError]. *)
Definition do_richcompare (v w : pystr) (op : cmpop) : result bool :=
  let checked_reverse_op :=
    negb (str_class_eqb (ob_type v) (ob_type w))
    && issubtype (ob_type w) (ob_type v) in
  let first :=
    if checked_reverse_op
    then tp_richcompare (ob_type w) w v (swapped_op op)
    else NotImplemented in
  match first with
  | Truth b => Ok b
  | NotImplemented =>
    match tp_richcompare (ob_type v) v w op with
    | Truth b => Ok b
    | NotImplemented =>
      let last :=
        if checked_reverse_op then NotImplemented
        else tp_richcompare (ob_type w) w v (swapped_op op) in
      match last with
      | Truth b => Ok b
      | NotImplemented =>
        match op with
        | Py_EQ => Ok (py_is v w)
        | Py_NE => Ok (negb (py_is v w))
        | _ => Raise TypeError
        end
      end
    end
  end.

Definition py_eq (v w : pystr) : result bool := do_richcompare v w Py_EQ.
Definition py_ne (v w : pystr) : result bool := do_richcompare v w Py_NE.

End StrTypes.

(** ** The scalar classes of [datatypes.py] *)

(** Classes whose instances only carry an identity. *)
Inductive singleton_class : Type := MarkerType | NAType | RemoveType.

(** Identity of an instance: the one created when the module is loaded
    ([MARKER = MarkerType()] and the like) or one created later. *)
Inductive identity : Type :=
| module_level
| created (n : nat).

Record singleton_object : Type := mk_singleton {
  so_type : singleton_class;
  so_id : identity
}.

Definition MARKER : singleton_object := mk_singleton MarkerType module_level.
Definition REMOVE : singleton_object := mk_singleton RemoveType module_level.

(** [Qty]: a float with a unit label ([None] or a string). *)
Record Qty : Type := mk_Qty {
  qty_value : float;
  qty_unit : option string
}.

Record Coordinate : Type := mk_Coordinate {
  latitude : float;
  longitude : float
}.

(** The [data] attribute of an [XStr]: a [bytearray] (from [fromhex]), a
    [bytes] object (from [b64decode]) or the undecoded [str]. *)
Inductive xstr_data : Type :=
| data_bytearray (b : list Byte.byte)
| data_bytes (b : list Byte.byte)
| data_str (s : string).

Record XStr : Type := mk_XStr {
  encoding : string;
  data : xstr_data
}.

(** [Ref]: [value] is the display text or [None]. *)
Record Ref : Type := mk_Ref {
  name : string;
  value : option string;
  has_value : bool
}.

(** The values a cell or a comparison operand can be.  [PyOther] stands for
    the classes defined outside [datatypes.py] (dates, times, lists, ...),
    kept by their [repr]. *)
Inductive pyvalue : Type :=
| PyNone
| PyBool (b : bool)
| PyFloat (x : float)
| PyStr (s : string)
| PyUri (s : string)
| PyBin (s : string)
| PySingleton (o : singleton_object)
| PyQty (q : Qty)
| PyCoordinate (c : Coordinate)
| PyXStr (x : XStr)
| PyRef (r : Ref)
| PyOther (repr : string).

(** Comparison of two optional strings with [==] ([None] equals only
    [None]). *)
Definition opt_str_eqb (a b : option string) : bool :=
  match a, b with
  | None, None => true
  | Some x, Some y => String.eqb x y
  | _, _ => false
  end.

(** The built-in [hash(obj)] on an instance of a class whose [__hash__] is
    written in Python: the result [h] of the method, except that -1, which
    the interpreter keeps for errors, becomes -2.  (A result outside the
    range of a machine word would be reduced further; the methods below
    combine machine-word hashes with [^] and stay in range.) *)
Definition builtin_hash (h : Z) : Z :=
  if Z.eqb h (-1) then -2 else h.

(** *** Quantity *)

Module QtyOps.

(** The six lambdas handed to [_cmp_op], on floats. *)
Definition operator_of (op : cmpop) (x y : float) : bool :=
  match op with
  | Py_LT => PrimFloat.ltb x y
  | Py_LE => PrimFloat.leb x y
  | Py_EQ => PrimFloat.eqb x y
  | Py_GE => PrimFloat.leb y x
  | Py_GT => PrimFloat.ltb y x
  | Py_NE => negb (PrimFloat.eqb x y)
  end.

(** [Qty._cmp_op]: [other] is a [Qty] or a bare number. *)
Definition _cmp_op (self : Qty) (other : Qty + float)
    (operator : float -> float -> bool) : result bool :=
  match other with
  | inl o =>
    if negb (opt_str_eqb (qty_unit o) (qty_unit self))
    then Raise TypeError
    else Ok (operator (qty_value self) (qty_value o))
  | inr y => Ok (operator (qty_value self) y)
  end.

Definition __lt__ (self : Qty) (other : Qty + float) : result bool :=
  _cmp_op self other (fun x y => PrimFloat.ltb x y).
Definition __le__ (self : Qty) (other : Qty + float) : result bool :=
  _cmp_op self other (fun x y => PrimFloat.leb x y).
Definition __eq__ (self : Qty) (other : Qty + float) : result bool :=
  _cmp_op self other (fun x y => PrimFloat.eqb x y).
Definition __ge__ (self : Qty) (other : Qty + float) : result bool :=
  _cmp_op self other (fun x y => PrimFloat.leb y x).
Definition __gt__ (self : Qty) (other : Qty + float) : result bool :=
  _cmp_op self other (fun x y => PrimFloat.ltb y x).
Definition __ne__ (self : Qty) (other : Qty + float) : result bool :=
  _cmp_op self other (fun x y => negb (PrimFloat.eqb x y)).

(** [a op b] for two quantities: the method of the left operand answers
    (it never returns [NotImplemented]) or raises. *)
Definition compare (op : cmpop) (a b : Qty) : result bool :=
  match op with
  | Py_LT => __lt__ a (inl b)
  | Py_LE => __le__ a (inl b)
  | Py_EQ => __eq__ a (inl b)
  | Py_NE => __ne__ a (inl b)
  | Py_GT => __gt__ a (inl b)
  | Py_GE => __ge__ a (inl b)
  end.

End QtyOps.

(** *** Coordinate *)

Module CoordinateOps.

Definition __eq__ (self : Coordinate) (other : pyvalue) : cmpres :=
  match other with
  | PyCoordinate o =>
    Truth (PrimFloat.eqb (latitude self) (latitude o)
           && PrimFloat.eqb (longitude self) (longitude o))
  | _ => NotImplemented
  end.

Definition __ne__ (self : Coordinate) (other : pyvalue) : cmpres :=
  match other with
  | PyCoordinate _ =>
    match __eq__ self other with
    | Truth b => Truth (negb b)
    | NotImplemented => NotImplemented
    end
  | _ => NotImplemented
  end.

(** The two attributes of a Coordinate. *)
Inductive attribute : Type := attr_latitude | attr_longitude.

Definition getattr (self : Coordinate) (a : attribute) : float :=
  match a with
  | attr_latitude => latitude self
  | attr_longitude => longitude self
  end.

(** The built-in [hash] on the float held by an attribute.  On a float
    that is no NaN it is a function of the value, [hash_float].  The hash
    of a NaN depends on the object (Python 3.10 and later), not on the
    value: [hash_nan] gives it for the object held by that attribute of
    that Coordinate, and nothing is assumed of it. *)
Definition hash_attribute (hash_float : float -> Z)
    (hash_nan : Coordinate -> attribute -> Z)
    (self : Coordinate) (a : attribute) : Z :=
  if PrimFloat.is_nan (getattr self a) then hash_nan self a
  else hash_float (getattr self a).

(** The method [Coordinate.__hash__]. *)
Definition __hash__ (hash_float : float -> Z)
    (hash_nan : Coordinate -> attribute -> Z) (self : Coordinate) : Z :=
  Z.lxor (hash_attribute hash_float hash_nan self attr_latitude)
         (hash_attribute hash_float hash_nan self attr_longitude).

(** [hash(c)] on a Coordinate [c]. *)
Definition hash (hash_float : float -> Z)
    (hash_nan : Coordinate -> attribute -> Z) (self : Coordinate) : Z :=
  builtin_hash (__hash__ hash_float hash_nan self).

(** The interpreter's hash on the floats 1.0 and -2.0 ([hash(1.0)] is 1
    and [hash(-2.0)] is -2: the hash of a float that is an integer is the
    hash of that integer); the other floats are not used. *)
Definition hash_float_sample (x : float) : Z :=
  if PrimFloat.eqb x 1 then 1
  else if PrimFloat.eqb x (-2) then -2
  else 0.

End CoordinateOps.

(** *** XStr *)

Module XStrOps.

Fixpoint bytes_eqb (a b : list Byte.byte) : bool :=
  match a, b with
  | [], [] => true
  | x :: a', y :: b' => Byte.eqb x y && bytes_eqb a' b'
  | _, _ => false
  end.

(** [==] on the [data] attributes: [bytearray] and [bytes] compare by
    content with each other, a [str] only equals a [str]. *)
Definition data_eqb (a b : xstr_data) : bool :=
  match a, b with
  | data_str s, data_str t => String.eqb s t
  | data_str _, _ | _, data_str _ => false
  | data_bytearray x, data_bytearray y
  | data_bytearray x, data_bytes y
  | data_bytes x, data_bytearray y
  | data_bytes x, data_bytes y => bytes_eqb x y
  end.

(** [XStr.__init__]; [fromhex] is [bytearray.fromhex] and [b64decode] is
    [base64.b64decode], both of which can raise. *)
Definition __init__
    (fromhex b64decode : string -> result (list Byte.byte))
    (encoding0 data0 : string) : result XStr :=
  if String.eqb encoding0 "hex" then
    b ← fromhex data0; Ok (mk_XStr encoding0 (data_bytearray b))
  else if String.eqb encoding0 "b64" then
    b ← b64decode data0; Ok (mk_XStr encoding0 (data_bytes b))
  else Ok (mk_XStr encoding0 (data_str data0)).

Definition __eq__ (self : XStr) (other : pyvalue) : cmpres :=
  match other with
  | PyXStr o => Truth (data_eqb (data self) (data o))
  | _ => NotImplemented
  end.

End XStrOps.

(** *** Singletons *)

Module Singleton.

Definition __copy__ (self : singleton_object) : singleton_object := self.

Definition __deepcopy__ {memo_t : Type} (self : singleton_object)
    (memo : memo_t) : singleton_object := self.

(** [hash_class] is the interpreter's [hash] on class objects. *)
Definition __hash__ (hash_class : singleton_class -> Z)
    (self : singleton_object) : Z :=
  hash_class (so_type self).

(** [copy.copy(x)] and [copy.deepcopy(x, memo)] call the class's
    [__copy__] and [__deepcopy__] when it defines them, which every
    subclass of [Singleton] does. *)
Definition copy (x : singleton_object) : singleton_object := __copy__ x.
Definition deepcopy {memo_t : Type} (x : singleton_object) (memo : memo_t)
  : singleton_object := __deepcopy__ x memo.


Definition class_eqb (c d : singleton_class) : bool :=
  match c, d with
  | MarkerType, MarkerType | NAType, NAType | RemoveType, RemoveType => true
  | _, _ => false
  end.

Definition identity_eqb (i j : identity) : bool :=
  match i, j with
  | module_level, module_level => true
  | created m, created n => Nat.eqb m n
  | _, _ => false
  end.

(** [x is y]: the same object. *)
Definition is_ (x y : singleton_object) : bool :=
  class_eqb (so_type x) (so_type y) && identity_eqb (so_id x) (so_id y).

(** [x == y]: neither [Singleton] nor its subclasses define [__eq__], so
    the comparison is that of [object], by identity. *)
Definition __eq__ (self other : singleton_object) : bool := is_ self other.

(** [isinstance(x, c)] for one of the three classes, none of which has a
    subclass. *)
Definition isinstance (x : singleton_object) (c : singleton_class) : bool :=
  class_eqb (so_type x) c.

End Singleton.

(** The [Singleton] of the older module [hszinc/datatypes.py]: the classes
    [MarkerType] and [RemoveType] only (there is no [NA]), with [__copy__]
    and [__deepcopy__] but no [__hash__], so that the hash of an instance
    is that of [object], which follows the identity of the instance. *)
Module hszinc_Singleton.

Inductive singleton_class : Type := MarkerType | RemoveType.

Record singleton_object : Type := mk_singleton {
  so_type : singleton_class;
  so_id : identity
}.

Definition MARKER : singleton_object := mk_singleton MarkerType module_level.
Definition REMOVE : singleton_object := mk_singleton RemoveType module_level.

Definition __copy__ (self : singleton_object) : singleton_object := self.

Definition __deepcopy__ {memo_t : Type} (self : singleton_object)
    (memo : memo_t) : singleton_object := self.

Definition copy (x : singleton_object) : singleton_object := __copy__ x.
Definition deepcopy {memo_t : Type} (x : singleton_object) (memo : memo_t)
  : singleton_object := __deepcopy__ x memo.

(** [object.__hash__]; [hash_id] is the interpreter's hash of an object
    by its identity. *)
Definition __hash__ (hash_id : singleton_class -> identity -> Z)
    (self : singleton_object) : Z :=
  hash_id (so_type self) (so_id self).

End hszinc_Singleton.

(** *** Ref *)

Module RefOps.

Definition in_range (lo hi c : ascii) : bool :=
  Ascii.leb lo c && Ascii.leb c hi.

(** The character class [[a-zA-Z0-9_:\-.~]] of the name pattern. *)
Definition name_char (c : ascii) : bool :=
  in_range "a" "z" c || in_range "A" "Z" c || in_range "0" "9" c
  || Ascii.eqb c "_" || Ascii.eqb c ":" || Ascii.eqb c "-"
  || Ascii.eqb c "." || Ascii.eqb c "~".

Definition newline : ascii := ascii_of_nat 10.

(** [$] without [re.MULTILINE]: at the end of the string, or just before
    a newline that ends the string. *)
Definition at_dollar (rest : string) : bool :=
  match rest with
  | EmptyString => true
  | String c EmptyString => Ascii.eqb c newline
  | _ => false
  end.

(** After one character of the class has been read: stop here if [$]
    matches, or read one more character of the class. *)
Fixpoint more_then_dollar (s : string) : bool :=
  at_dollar s
  || match s with
     | String c s' => name_char c && more_then_dollar s'
     | EmptyString => false
     end.

(** [re.match("^[a-zA-Z0-9_:\\-.~]+$", name)] as a truth value. *)
Definition re_match_name (s : string) : bool :=
  match s with
  | String c s' => name_char c && more_then_dollar s'
  | EmptyString => false
  end.

(** Every character of [s] is in the class. *)
Fixpoint all_name_chars (s : string) : bool :=
  match s with
  | EmptyString => true
  | String c s' => name_char c && all_name_chars s'
  end.

(** A valid name: one or more characters, all of the class. *)
Definition valid_name (s : string) : bool :=
  negb (String.eqb s "") && all_name_chars s.

(** The last character of [s] is a newline. *)
Fixpoint ends_with_newline (s : string) : bool :=
  match s with
  | EmptyString => false
  | String c EmptyString => Ascii.eqb c newline
  | String _ s' => ends_with_newline s'
  end.

(** [value is not None]. *)
Definition is_not_None (v : option string) : bool :=
  match v with Some _ => true | None => false end.

(** [Ref.__init__(name, value=None, has_value=False)] of
    [haystackapi/datatypes.py]. *)
Definition __init__ (name0 : string) (value0 : option string)
    (has_value0 : bool) : result Ref :=
  if negb (re_match_name name0) then Raise AssertionError
  else Ok (mk_Ref name0 value0 (has_value0 || is_not_None value0)).

(** [Ref.__init__] of the older [hszinc/datatypes.py]: no check. *)
Definition hszinc___init__ (name0 : string) (value0 : option string)
    (has_value0 : bool) : result Ref :=
  Ok (mk_Ref name0 value0 (has_value0 || is_not_None value0)).

Definition __eq__ (self : Ref) (other : pyvalue) : cmpres :=
  match other with
  | PyRef o =>
    Truth (String.eqb (name self) (name o)
           && Bool.eqb (has_value self) (has_value o)
           && opt_str_eqb (value self) (value o))
  | _ => NotImplemented
  end.

Definition __ne__ (self : Ref) (other : pyvalue) : cmpres :=
  match other with
  | PyRef _ =>
    match __eq__ self other with
    | Truth b => Truth (negb b)
    | NotImplemented => NotImplemented
    end
  | _ => NotImplemented
  end.

(** The order methods hand over to the methods of [str] on the names. *)
Definition __lt__ (self other : Ref) : bool :=
  String.ltb (name self) (name other).
Definition __le__ (self other : Ref) : bool :=
  String.leb (name self) (name other).
Definition __gt__ (self other : Ref) : bool :=
  String.ltb (name other) (name self).
Definition __ge__ (self other : Ref) : bool :=
  String.leb (name other) (name self).

(** [hash(True)] is 1 and [hash(False)] is 0. *)
Definition hash_bool (b : bool) : Z := if b then 1 else 0.

(** [hash_str] and [hash_None] are the interpreter's [hash] on strings
    and on [None]. *)
Definition __hash__ (hash_str : string -> Z) (hash_None : Z) (self : Ref)
  : Z :=
  let hash_value :=
    match value self with
    | Some s => hash_str s
    | None => hash_None
    end in
  Z.lxor (Z.lxor (hash_str (name self)) hash_value)
         (hash_bool (has_value self)).

(** The tuple [(name, has_value, value)] and [==] on two such tuples. *)
Definition key (r : Ref) : string * bool * option string :=
  (name r, has_value r, value r).

Definition key_eqb (k1 k2 : string * bool * option string) : bool :=
  let '(n1, h1, v1) := k1 in
  let '(n2, h2, v2) := k2 in
  String.eqb n1 n2 && Bool.eqb h1 h2 && opt_str_eqb v1 v2.

End RefOps.

(** ** [csvparser.py] *)

Module csvparser.

(** Modelled from the spec: [version.py] is not among the sources; the
    default schema version is 3.0. *)
Definition VER_3_0 : string := "3.0".

(** What [parse_scalar] returns: the module's sentinel object [_EMPTY]
    (recognised by identity with [is]) or a value. *)
Inductive cell : Type :=
| _EMPTY
| Scalar (v : pyvalue).

(** U+2713, the check mark, in UTF-8. *)
Definition check_mark : string :=
  String (ascii_of_nat 226)
    (String (ascii_of_nat 156) (String (ascii_of_nat 147) EmptyString)).

(** [s.split(' ', 1)]: the text before the first space and, when there
    is a space, the text after it. *)
Fixpoint split_space_1 (s : string) : string * option string :=
  match s with
  | EmptyString => (EmptyString, None)
  | String c s' =>
    if Ascii.eqb c " " then (EmptyString, Some s')
    else let '(h, t) := split_space_1 s' in (String c h, t)
  end.

(** [s[0] == c] on a string that is not empty. *)
Definition first_is (c : ascii) (s : string) : bool :=
  match s with
  | String d _ => Ascii.eqb d c
  | EmptyString => false
  end.

(** [s[1:]]. *)
Definition drop1 (s : string) : string :=
  match s with
  | String _ r => r
  | EmptyString => EmptyString
  end.

Section Parser.

(** [zincparser.parse_scalar], defined outside the sources at hand. *)
Variable zinc_parse_scalar : string -> string -> result pyvalue.

Definition parse_scalar (scalar version : string) : result cell :=
  if String.eqb scalar "" then Ok _EMPTY
  else if String.eqb scalar check_mark then Ok (Scalar (PySingleton MARKER))
  else if String.eqb scalar "true" then Ok (Scalar (PyBool true))
  else if String.eqb scalar "false" then Ok (Scalar (PyBool false))
  else if first_is "@" scalar then
    let '(name0, value0) := split_space_1 (drop1 scalar) in
    r ← RefOps.__init__ name0 value0 false;
    Ok (Scalar (PyRef r))
  else
    match zinc_parse_scalar scalar version with
    | Ok v => Ok (Scalar v)
    | Raise ZincParseException => Ok (Scalar (PyStr scalar))
    | Raise e => Raise e
    end.

(** The loop over the cells of one row, from index [idx] on. *)
Fixpoint parse_cells (headers : list string) (idx : nat)
    (row : list string) (a_map : gmap string pyvalue)
  : result (gmap string pyvalue) :=
  match row with
  | [] => Ok a_map
  | val :: row' =>
    v ← parse_scalar val VER_3_0;
    match v with
    | _EMPTY => parse_cells headers (S idx) row' a_map
    | Scalar value0 =>
      if (length headers <=? idx)%nat then Raise ZincParseException
      else
        match value0 with
        | PyNone => parse_cells headers (S idx) row' a_map
        | _ =>
          parse_cells headers (S idx) row'
            (<[default "" (headers !! idx) := value0]> a_map)
        end
    end
  end.

Definition parse_row (headers row : list string)
  : result (gmap string pyvalue) :=
  parse_cells headers 0 row ∅.

(** The [Grid] class of [grid.py], which is not among the sources: its
    constructor and its [append], either of which may raise. *)
Variable Grid : Type.
Variable Grid_new :
  string -> list (string * gmap string pyvalue) -> result Grid.
Variable Grid_append : Grid -> gmap string pyvalue -> result Grid.

(** The loop over the data rows. *)
Fixpoint parse_rows (headers : list string) (grid : Grid)
    (rows : list (list string)) : result Grid :=
  match rows with
  | [] => Ok grid
  | row :: rows' =>
    a_map ← parse_row headers row;
    grid' ← Grid_append grid a_map;
    parse_rows headers grid' rows'
  end.

(** [csv.reader(StringIO(grid_str))], as the list of rows it yields. *)
Variable reader : string -> list (list string).

Definition parse_grid (grid_str : string) : result Grid :=
  match reader grid_str with
  | [] => Raise StopIteration
  | headers :: rows =>
    grid ← Grid_new VER_3_0 (map (fun x => (x, ∅)) headers);
    parse_rows headers grid rows
  end.

End Parser.

(** Modelled from the spec: [grid.py] is not among the sources.  A grid
    is its version, its ordered columns and its ordered rows; a column
    name that comes twice is refused with [SchemaError]; [append] adds a
    row at the end. *)
Record SpecGrid : Type := mk_SpecGrid {
  grid_version : string;
  grid_columns : list (string * gmap string pyvalue);
  grid_rows : list (gmap string pyvalue)
}.

Fixpoint has_duplicate (names : list string) : bool :=
  match names with
  | [] => false
  | n :: rest => existsb (String.eqb n) rest || has_duplicate rest
  end.

Definition SpecGrid_new (version : string)
    (columns : list (string * gmap string pyvalue)) : result SpecGrid :=
  if has_duplicate (map fst columns) then Raise (OtherError "SchemaError")
  else Ok (mk_SpecGrid version columns []).

Definition SpecGrid_append (g : SpecGrid) (row : gmap string pyvalue)
  : result SpecGrid :=
  Ok (mk_SpecGrid (grid_version g) (grid_columns g) (grid_rows g ++ [row])).

(** The rule table of the cell parser, by the shape of the cell: empty,
    check mark, [true], [false], starting with [@], anything else. *)
Inductive cell_kind : Type :=
| kind_empty | kind_marker | kind_true | kind_false | kind_ref | kind_zinc.

Definition kind_of (scalar : string) : cell_kind :=
  if String.eqb scalar "" then kind_empty
  else if String.eqb scalar check_mark then kind_marker
  else if String.eqb scalar "true" then kind_true
  else if String.eqb scalar "false" then kind_false
  else if first_is "@" scalar then kind_ref
  else kind_zinc.

(** [csv.reader] on a text without quotes and carriage returns: one row
    per line, an empty line gives an empty row, and the fields of a line
    are what stands between its commas. *)
Fixpoint split_on (sep : ascii) (s : string) : list string :=
  match s with
  | EmptyString => [EmptyString]
  | String c s' =>
    if Ascii.eqb c sep then EmptyString :: split_on sep s'
    else
      match split_on sep s' with
      | h :: t => String c h :: t
      | [] => [String c EmptyString]
      end
  end.

Fixpoint drop_last_empty (l : list string) : list string :=
  match l with
  | [] => []
  | [x] => if String.eqb x "" then [] else [x]
  | x :: l' => x :: drop_last_empty l'
  end.

Definition lines (s : string) : list string :=
  drop_last_empty (split_on RefOps.newline s).

Definition reader_unquoted (s : string) : list (list string) :=
  map (fun l => if String.eqb l "" then [] else split_on "," l) (lines s).

(** A line break, to write CSV texts with. *)
Definition nl : string := String RefOps.newline EmptyString.

End csvparser.

(** ** [ops.py]: choosing the format of a response *)

Module ops.

(** Modelled from the spec: [parser.py], which defines the mime type of
    each format, is not among the sources. *)
Definition MODE_ZINC : string := "text/zinc".
Definition MODE_JSON : string := "application/json".
Definition MODE_CSV : string := "text/csv".

Definition DEFAULT_MIME_TYPE : string := MODE_CSV.
Definition _DEFAULT_MIME_TYPE_WITH_METADATA : string := MODE_ZINC.

(** *** [accept_types.get_best_match]

    The function comes from the [accept_types] package; [ops.py] holds a
    copy of its algorithm for encodings ([_parse_header] and
    [get_best_encoding_match]), which the model follows.  In this module
    an Accept header is the list of its valid items in header order, each
    with its mime pattern and its [q] weight (1 when absent): the
    functions here are what [get_best_match] and [_dump_response] do once
    the header has been read.  The reading itself, which can raise, is
    added in [ops_http], where [_dump_response] takes the header as
    text. *)

Record AcceptableType : Type := mk_AcceptableType {
  mime_type : string;
  weight : Q
}.

(** [AcceptableType.__lt__]: by weight. *)
Definition acceptable_lt (a b : AcceptableType) : bool :=
  negb (Qle_bool (weight b) (weight a)).

(** [sorted(mime_types, reverse=True)]: descending by weight, items of
    equal weight in their original order. *)
Fixpoint insert_sorted (x : AcceptableType) (l : list AcceptableType)
  : list AcceptableType :=
  match l with
  | [] => [x]
  | y :: l' =>
    if acceptable_lt x y then y :: insert_sorted x l' else x :: l
  end.

Definition sorted_reverse (l : list AcceptableType) : list AcceptableType :=
  foldr insert_sorted [] l.

(** Truth value of an optional string: [None] and [''] are false. *)
Definition truthy (o : option string) : bool :=
  match o with
  | Some s => negb (String.eqb s "")
  | None => false
  end.

(** The mime types [_dump_response] offers, in the order it lists them. *)
Definition offered : list string := ["*/*"; MODE_CSV; MODE_ZINC; MODE_JSON].

Section Negotiation.

(** [AcceptableType.matches]: the regular expression the package compiles
    from the mime pattern of an acceptable type, tried on a mime type. *)
Variable matches : AcceptableType -> string -> bool.

(** The two nested loops: acceptable types outside, available types
    inside; the first match is returned. *)
Fixpoint first_match (acceptable_types : list AcceptableType)
    (available_types : list string) : option string :=
  match acceptable_types with
  | [] => None
  | acceptable_type :: rest =>
    match List.find (matches acceptable_type) available_types with
    | Some available_type => Some available_type
    | None => first_match rest available_types
    end
  end.

Definition get_best_match (header : list AcceptableType)
    (available_types : list string) : option string :=
  first_match (sorted_reverse header) available_types.

(** *** [_dump_response] *)

(** The grid class and [dumper.dump], defined outside the sources at
    hand. *)
Variable Grid : Type.
Variable dump : Grid -> string -> result string.

Definition dumped (grid : Grid) (mode : string)
  : result (string * string) :=
  body ← dump grid mode;
  Ok (mode ++ "; charset=utf-8", body).

(** The end of [_dump_response], reached when no branch has returned:
    the default format if one is given, else the HTTP error 406. *)
Definition fallback (grid : Grid) (default0 : option string)
  : result (string * string) :=
  match default0 with
  | Some d =>
    if truthy default0 then dumped grid d
    else Raise (HttpError 406)
  | None => Raise (HttpError 406)
  end.

Definition _dump_response (accept : list AcceptableType) (grid : Grid)
    (default0 : option string) : result (string * string) :=
  let accept_type :=
    get_best_match accept ["*/*"; MODE_CSV; MODE_ZINC; MODE_JSON] in
  let otherwise := fallback grid default0 in
  match accept_type with
  | Some t =>
    if truthy accept_type then
      if String.eqb t DEFAULT_MIME_TYPE || String.eqb t "*/*"
      then dumped grid DEFAULT_MIME_TYPE
      else if String.eqb t MODE_ZINC then dumped grid MODE_ZINC
      else if String.eqb t MODE_JSON then dumped grid MODE_JSON
      else if String.eqb t MODE_CSV then dumped grid MODE_CSV
      else otherwise
    else otherwise
  | None => otherwise
  end.

(** What one acceptable type selects among the formats, by the preference
    CSV, then Zinc, then JSON; [None] when it matches none of them. *)
Definition preferred (a : AcceptableType) : option string :=
  if matches a "*/*" || matches a MODE_CSV then Some MODE_CSV
  else if matches a MODE_ZINC then Some MODE_ZINC
  else if matches a MODE_JSON then Some MODE_JSON
  else None.

(** The selection of the first acceptable type, in the order of the list,
    that selects a format. *)
Fixpoint first_preferred (l : list AcceptableType) : option string :=
  match l with
  | [] => None
  | a :: rest =>
    match preferred a with
    | Some m => Some m
    | None => first_preferred rest
    end
  end.

End Negotiation.

(** Every item of the header has the weight [w]. *)
Definition all_weigh (w : Q) (l : list AcceptableType) : bool :=
  forallb (fun a => Qeq_bool (weight a) w) l.

(** [a] may stand before [b] in a list of descending weights: [b] is not
    heavier than [a]. *)
Definition not_lighter (a b : AcceptableType) : Prop :=
  (weight b <= weight a)%Q.

(** The items of weight [w], in the order of the list. *)
Definition of_weight (w : Q) (l : list AcceptableType)
  : list AcceptableType :=
  List.filter (fun a => Qeq_bool (weight a) w) l.

(** The format served for an offered mime type. *)
Definition mode_of (t : string) : string :=
  if String.eqb t "*/*" then DEFAULT_MIME_TYPE else t.

(** *** A matcher for the examples

    The properties hold for every matcher.  The examples need one: in
    this one a [*] of the pattern stands for one or more characters of
    [[a-zA-Z0-9_.$#!%^*-]], any other character for itself, and the whole
    mime type has to be matched.  It is only applied to the patterns
    [*/*], [text/*] and the mime types written out in full, against the
    four offered types. *)

Definition mime_char (c : ascii) : bool :=
  RefOps.in_range "a" "z" c || RefOps.in_range "A" "Z" c
  || RefOps.in_range "0" "9" c
  || Ascii.eqb c "_" || Ascii.eqb c "." || Ascii.eqb c "$"
  || Ascii.eqb c "#" || Ascii.eqb c "!" || Ascii.eqb c "%"
  || Ascii.eqb c "^" || Ascii.eqb c "*" || Ascii.eqb c "-".

Fixpoint pattern_match (pat : string) : string -> bool :=
  match pat with
  | EmptyString => fun s => RefOps.at_dollar s
  | String p pat' =>
    if Ascii.eqb p "*" then
      fix star (s : string) : bool :=
        match s with
        | EmptyString => false
        | String c s' => mime_char c && (pattern_match pat' s' || star s')
        end
    else
      fun s =>
        match s with
        | EmptyString => false
        | String c s' => Ascii.eqb p c && pattern_match pat' s'
        end
  end.

Definition pattern_matches (a : AcceptableType) (mime : string) : bool :=
  pattern_match (mime_type a) mime.

End ops.

(** ** Further code of [datatypes.py] *)

Module QtyCmp.

(** [Qty.__cmp__]: [self == other], then [self < other]; either can
    raise. *)
Definition __cmp__ (self : Qty) (other : Qty + float) : result Z :=
  eq ← QtyOps.__eq__ self other;
  if (eq : bool) then Ok 0
  else
    lt ← QtyOps.__lt__ self other;
    if (lt : bool) then Ok (-1) else Ok 1.

End QtyCmp.

Module XStrCodec.

(** [binascii.b2a_hex]: two lower-case hexadecimal digits per byte. *)
Definition hex_digit (n : N) : ascii :=
  if (n <? 10)%N then ascii_of_N (48 + n) else ascii_of_N (87 + n).

Definition byte_to_hex (b : Byte.byte) : string :=
  let n := Byte.to_N b in
  String (hex_digit (n / 16)) (String (hex_digit (n mod 16)) EmptyString).

Fixpoint b2a_hex (b : list Byte.byte) : string :=
  match b with
  | [] => EmptyString
  | x :: b' => String.append (byte_to_hex x) (b2a_hex b')
  end.

(** The value of a hexadecimal digit, of either case. *)
Definition digit_value (c : ascii) : option N :=
  let n := N_of_ascii c in
  if RefOps.in_range "0" "9" c then Some (n - 48)%N
  else if RefOps.in_range "a" "f" c then Some (n - 87)%N
  else if RefOps.in_range "A" "F" c then Some (n - 55)%N
  else None.

(** ASCII white space: space, tab, line feed, vertical tab, form feed,
    carriage return. *)
Definition is_space (c : ascii) : bool :=
  let n := N_of_ascii c in
  (n =? 32)%N || ((9 <=? n)%N && (n <=? 13)%N).

Definition byte_of_nibbles (top bot : N) : Byte.byte :=
  match Byte.of_N (16 * top + bot) with
  | Some b => b
  | None => Byte.x00
  end.

(** [bytearray.fromhex] (Python 3.7 and later): white space before a byte
    is skipped, a byte is two hexadecimal digits, anything else is a
    [ValueError]. *)
Fixpoint fromhex (s : string) : result (list Byte.byte) :=
  match s with
  | EmptyString => Ok []
  | String c s' =>
    if is_space c then fromhex s'
    else
      match digit_value c, s' with
      | Some top, String d s'' =>
        match digit_value d with
        | Some bot =>
          match fromhex s'' with
          | Ok bs => Ok (byte_of_nibbles top bot :: bs)
          | Raise e => Raise e
          end
        | None => Raise (OtherError "ValueError")
        end
      | _, _ => Raise (OtherError "ValueError")
      end
  end.

(** [XStr.data_to_string]; [b2a_base64] is [binascii.b2a_base64] without
    the final line break.  The binascii functions raise [TypeError] on a
    [str]; for the other encodings the [data] attribute is returned as it
    is. *)
Definition data_to_string (b2a_base64 : list Byte.byte -> string)
    (self : XStr) : result xstr_data :=
  if String.eqb (encoding self) "hex" then
    match data self with
    | data_bytearray b | data_bytes b => Ok (data_str (b2a_hex b))
    | data_str _ => Raise TypeError
    end
  else if String.eqb (encoding self) "b64" then
    match data self with
    | data_bytearray b | data_bytes b => Ok (data_str (b2a_base64 b))
    | data_str _ => Raise TypeError
    end
  else Ok (data self).

End XStrCodec.

(** ** [graphql_model.py] *)

Module graphql_model.

(** [s[n:]]. *)
Fixpoint drop_chars (n : nat) (s : string) : string :=
  match n, s with
  | O, _ => s
  | S n', String _ s' => drop_chars n' s'
  | S _, EmptyString => EmptyString
  end.

(** [ReadHaystack._filter_id]. *)
Definition _filter_id (entity_id : string) : string :=
  if String.prefix "r:" entity_id then drop_chars 2 entity_id
  else if String.prefix "@" entity_id then drop_chars 1 entity_id
  else entity_id.

End graphql_model.

(** ** [ops.py]: responses and the handling of exceptions *)

Module ops_http.

Record HaystackHttpRequest : Type := mk_request {
  rq_body : string;
  rq_args : gmap string string;
  rq_is_base64 : bool;
  rq_headers : gmap string string
}.

Record HaystackHttpResponse : Type := mk_response {
  status_code : Z;
  status : string;
  rs_headers : gmap string string;
  rs_body : string
}.

(** [isinstance(ex, Exception)], which is what [except Exception]
    catches.  [OtherError n] stands for the class named [n] of the
    interpreter and its library: those that derive from [BaseException]
    without deriving from [Exception] pass through such a handler.
    [HttpError] comes from [providers/haystack_interface.py], which is not
    among the sources; it is taken as an [Exception], as the annotation
    [ex: Exception] of [_manage_exception] has it. *)
Definition is_Exception (ex : exn) : bool :=
  match ex with
  | OtherError n =>
    negb (String.eqb n "BaseException" || String.eqb n "SystemExit"
          || String.eqb n "KeyboardInterrupt" || String.eqb n "GeneratorExit"
          || String.eqb n "BaseExceptionGroup"
          || String.eqb n "CancelledError")
  | _ => true
  end.

Section Responses.

(** The parameters of the negotiation, as for [ops._dump_response], and
    the reading of the text of an Accept header by the package
    ([parse_header] without the sorting): the valid items in header
    order.  The reading can raise: the weight of an item is read with
    [Decimal], which raises [decimal.InvalidOperation] on a text that is
    no number, and the reader only catches [ValueError] (as its copy
    [_get_weight] in [ops.py] does). *)
Variable matches : ops.AcceptableType -> string -> bool.
Variable Grid : Type.
Variable dump : Grid -> string -> result string.
Variable parse_accept : string -> result (list ops.AcceptableType).

(** [get_best_match(header, available_types)] on the text of the
    header. *)
Definition get_best_match (header : string) (available_types : list string)
  : result (option string) :=
  acceptable_types ← parse_accept header;
  Ok (ops.first_match matches (ops.sorted_reverse acceptable_types)
        available_types).

(** [_dump_response(accept, grid, default)] on the text of the header:
    the call of [get_best_match] comes first and reads the header; what
    follows is [ops._dump_response] on the items read. *)
Definition _dump_response (accept : string) (grid : Grid)
    (default0 : option string) : result (string * string) :=
  acceptable_types ← parse_accept accept;
  ops._dump_response matches Grid dump acceptable_types grid default0.

Definition _format_response (headers : gmap string string)
    (grid_response : Grid) (status_code0 : Z) (status_msg : string)
    (default0 : option string) : result HaystackHttpResponse :=
  hs_response ←
    _dump_response (default ops.DEFAULT_MIME_TYPE (headers !! "Accept"))
      grid_response default0;
  Ok (mk_response status_code0 status_msg
        (<["Content-Type" := hs_response.1]> {["Content-Type" := "text/text"]})
        hs_response.2).

(** The error grid built by [_manage_exception] from the trace text, the
    text of the current traceback, and the [msg] attribute of an
    [HttpError]. *)
Variable error_grid : string -> result Grid.
Variable format_exc : exn -> string.
Variable HttpError_msg : exn -> string.

Definition _manage_exception (headers : gmap string string) (ex : exn)
    (stage : string) : result HaystackHttpResponse :=
  grid ← error_grid (if String.eqb stage "dev" then format_exc ex else "");
  let '(status_code0, status_msg) :=
    match ex with
    | HttpError error => (error, HttpError_msg ex)
    | _ => (400, "ERROR")
    end in
  _format_response headers grid status_code0 status_msg
    (Some ops._DEFAULT_MIME_TYPE_WITH_METADATA).

(** The provider: [get_singleton_provider()] and its [about] and [ops]
    methods, which return a grid or [None]. *)
Variable Provider : Type.
Variable get_singleton_provider : result Provider.
Variable provider_about : Provider -> string -> result (option Grid).
Variable provider_ops : Provider -> result (option Grid).

(** [assert grid_response is not None]. *)
Definition assert_not_None (g : option Grid) : result Grid :=
  match g with
  | Some grid => Ok grid
  | None => Raise AssertionError
  end.

(** [headers["Host"]]. *)
Definition get_Host (headers : gmap string string) : result string :=
  match headers !! "Host" with
  | Some h => Ok h
  | None => Raise (OtherError "KeyError")
  end.

(** The body of the [try] statement of [about]. *)
Definition about_try (request : HaystackHttpRequest) (stage : string)
  : result HaystackHttpResponse :=
  let headers := rq_headers request in
  provider ← get_singleton_provider;
  host ← get_Host headers;
  let home :=
    if String.prefix "localhost:" host
    then String.append "http://" (String.append host "/")
    else String.append "https://"
           (String.append host (String.append "/" stage)) in
  grid_response ← provider_about provider home;
  grid ← assert_not_None grid_response;
  _format_response headers grid 200 "OK" None.

Definition about (request : HaystackHttpRequest) (stage : string)
  : result HaystackHttpResponse :=
  let headers := rq_headers request in
  match about_try request stage with
  | Ok response => Ok response
  | Raise ex =>
    if is_Exception ex then _manage_exception headers ex stage
    else Raise ex
  end.

(** The body of the [try] statement of [ops]. *)
Definition ops_try (request : HaystackHttpRequest) (stage : string)
  : result HaystackHttpResponse :=
  let headers := rq_headers request in
  provider ← get_singleton_provider;
  grid_response ← provider_ops provider;
  grid ← assert_not_None grid_response;
  _format_response headers grid 200 "OK" None.

Definition ops (request : HaystackHttpRequest) (stage : string)
  : result HaystackHttpResponse :=
  let headers := rq_headers request in
  match ops_try request stage with
  | Ok response => Ok response
  | Raise ex =>
    if is_Exception ex then _manage_exception headers ex stage
    else Raise ex
  end.

End Responses.

End ops_http.

(** ** What a cell contributes to its row *)

(** The value a cell leaves in the map of its row: none for the empty
    cell, for a Zinc null and for a cell that cannot be read. *)
Definition cell_value (zinc_parse_scalar : string -> string -> result pyvalue)
    (c : string) : option pyvalue :=
  match csvparser.parse_scalar zinc_parse_scalar c csvparser.VER_3_0 with
  | Ok (csvparser.Scalar PyNone) => None
  | Ok (csvparser.Scalar v) => Some v
  | _ => None
  end.

(** ** [ops.py]: the choice of a content encoding *)

Module encodings.

(** [_AcceptableEncoding]: the encoding type and the weight; the pattern
    is derived from the type.  The record of acceptable mime types has the
    same two fields and the same order ([__lt__] by weight) and stands for
    it, [mime_type] being [encoding_type]. *)
Definition _AcceptableEncoding : Type := ops.AcceptableType.
Definition encoding_type (a : _AcceptableEncoding) : string :=
  ops.mime_type a.

(** [s.split(sep, 1)]. *)
Fixpoint split_1 (sep : ascii) (s : string) : string * option string :=
  match s with
  | EmptyString => (EmptyString, None)
  | String c s' =>
    if Ascii.eqb c sep then (EmptyString, Some s')
    else let '(h, t) := split_1 sep s' in (String c h, t)
  end.

(** The characters of an encoding type: [[a-zA-Z-]]. *)
Definition encoding_char (c : ascii) : bool :=
  RefOps.in_range "a" "z" c || RefOps.in_range "A" "Z" c || Ascii.eqb c "-".

Fixpoint more_encoding_chars (s : string) : bool :=
  RefOps.at_dollar s
  || match s with
     | String c s' => encoding_char c && more_encoding_chars s'
     | EmptyString => false
     end.

(** [_valid_encoding_type.match(s)], for the pattern [^(?:[a-zA-Z-]+)$]. *)
Definition _valid_encoding_type (s : string) : bool :=
  match s with
  | String c s' => encoding_char c && more_encoding_chars s'
  | EmptyString => false
  end.

(** Every character of [s] is a letter or a hyphen. *)
Fixpoint all_encoding_chars (s : string) : bool :=
  match s with
  | EmptyString => true
  | String c s' => encoding_char c && all_encoding_chars s'
  end.

(** One or more characters, each a letter or a hyphen. *)
Definition letters_and_hyphens (s : string) : bool :=
  match s with
  | EmptyString => false
  | String _ _ => all_encoding_chars s
  end.

(** [except ValueError]. *)
Definition is_ValueError (e : exn) : bool :=
  match e with
  | OtherError n => String.eqb n "ValueError"
  | _ => false
  end.

Section Encodings.

(** [_get_weight], which reads the [q] parameter of the tail with a
    regular expression and [Decimal], and [str.strip]. *)
Variable _get_weight : string -> result Q.
Variable strip : string -> string.

(** [_AcceptableEncoding.__init__]. *)
Definition __init__ (raw_encoding_type : string)
  : result _AcceptableEncoding :=
  let '(encoding_type0, rest) := split_1 ";" raw_encoding_type in
  if negb (_valid_encoding_type encoding_type0)
  then Raise (OtherError "ValueError")
  else
    let tail := default "" rest in
    w ← _get_weight tail;
    Ok (ops.mk_AcceptableType encoding_type0 w).

(** [_AcceptableEncoding.matches]: the pattern is the escaped type between
    [^] and [$], so it matches the type itself and the type followed by a
    line break. *)
Definition matches (self : _AcceptableEncoding) (encoding : string) : bool :=
  String.eqb encoding (encoding_type self)
  || String.eqb encoding (String.append (encoding_type self) csvparser.nl).

(** The loop of [_parse_header]: the items whose type is not valid are
    left out, any other error is passed on. *)
Fixpoint collect (raw_encoding_types : list string)
  : result (list _AcceptableEncoding) :=
  match raw_encoding_types with
  | [] => Ok []
  | raw :: rest =>
    match __init__ (strip raw) with
    | Ok a => l ← collect rest; Ok (a :: l)
    | Raise e => if is_ValueError e then collect rest else Raise e
    end
  end.

Definition _parse_header (header : string)
  : result (list _AcceptableEncoding) :=
  encoding_types ← collect (csvparser.split_on "," header);
  Ok (ops.sorted_reverse encoding_types).

Definition get_best_encoding_match (header : string)
    (available_encoding : list string) : result (option string) :=
  acceptable_types ← _parse_header header;
  Ok (ops.first_match matches acceptable_types available_encoding).

End Encodings.

End encodings.

(** ** What a response carries *)

(** The format negotiated for an Accept header: the format served for the
    best match, if there is one. *)
Definition negotiated_mode (matches : ops.AcceptableType -> string -> bool)
    (accept : list ops.AcceptableType) : option string :=
  ops.mode_of <$> ops.get_best_match matches accept ops.offered.

(** The headers of a response served in the format [mode]. *)
Definition response_headers (mode : string) : gmap string string :=
  <["Content-Type" := String.append mode "; charset=utf-8"]>
    {["Content-Type" := "text/text"]}.

(** The status code and message [_manage_exception] gives an exception. *)
Definition status_code_of (ex : exn) : Z :=
  match ex with
  | HttpError error => error
  | _ => 400
  end.

Definition status_msg_of (HttpError_msg : exn -> string) (ex : exn)
  : string :=
  match ex with
  | HttpError _ => HttpError_msg ex
  | _ => "ERROR"
  end.

(** * Properties *)

(** ** Shared facts *)

Lemma opt_str_eqb_eq (a b : option string) :
  opt_str_eqb a b = true <-> a = b.
Proof.
  destruct a as [x|], b as [y|]; simpl; try (split; congruence).
  rewrite String.eqb_eq. split; congruence.
Qed.

Lemma opt_str_eqb_neq (a b : option string) :
  opt_str_eqb a b = false <-> a <> b.
Proof.
  rewrite <- opt_str_eqb_eq. destruct (opt_str_eqb a b); split; congruence.
Qed.

(** ** [str], [Uri] and [Bin] under [==] and [!=] *)

Section StrTypesFacts.
Import StrTypes.

Variable s : string.
Variables i j : nat.

Let a_str := mk_pystr cls_str i s.
Let a_Uri := mk_pystr cls_Uri i s.
Let a_Bin := mk_pystr cls_Bin j s.

Lemma Uri_eq_str : py_eq a_Uri (mk_pystr cls_str j s) = Ok true.
Proof.
  unfold py_eq, do_richcompare; simpl.
  unfold Uri___eq__, unicode_richcompare; simpl.
  now rewrite String.eqb_refl.
Qed.

Lemma str_eq_Uri : py_eq a_str (mk_pystr cls_Uri j s) = Ok true.
Proof.
  unfold py_eq, do_richcompare; simpl.
  unfold Uri___eq__, unicode_richcompare; simpl.
  now rewrite String.eqb_refl.
Qed.

Lemma Bin_eq_str : py_eq a_Bin (mk_pystr cls_str i s) = Ok true.
Proof.
  unfold py_eq, do_richcompare; simpl.
  unfold Bin___eq__, unicode_richcompare; simpl.
  now rewrite String.eqb_refl.
Qed.

Lemma ne_is_str_ne (c d : str_class) (m n : nat) :
  py_ne (mk_pystr c m s) (mk_pystr d n s) = Ok false.
Proof.
  unfold py_ne, do_richcompare.
  destruct c, d; simpl; unfold unicode_richcompare; simpl;
    now rewrite String.eqb_refl.
Qed.

Lemma Uri_eq_Bin : i <> j -> py_eq a_Uri a_Bin = Ok false.
Proof.
  intros Hij. unfold py_eq, do_richcompare; simpl.
  unfold py_is; simpl. f_equal. now apply Nat.eqb_neq.
Qed.

End StrTypesFacts.

(** C1.  The claim is that [String(s)], [Uri(s)] and [Bin(s)] are mutually
    unequal for every [s].  On the code they are not: for every text [s],
    [Uri(s) == s], [s == Uri(s)] and [Bin(s) == s] are true, because the
    guard of [Uri.__eq__] and [Bin.__eq__] returns [NotImplemented] and the
    interpreter then asks [str.__eq__], which compares the texts; and
    [!=] between any two of the three is false, because neither class
    defines [__ne__] and [str.__ne__] compares the texts. *)
Theorem C1_wrappers_compare_equal (s : string) (i j : nat) :
  StrTypes.py_eq (StrTypes.mk_pystr StrTypes.cls_Uri i s)
                 (StrTypes.mk_pystr StrTypes.cls_str j s) = Ok true
  /\ StrTypes.py_eq (StrTypes.mk_pystr StrTypes.cls_str i s)
                    (StrTypes.mk_pystr StrTypes.cls_Uri j s) = Ok true
  /\ StrTypes.py_eq (StrTypes.mk_pystr StrTypes.cls_Bin j s)
                    (StrTypes.mk_pystr StrTypes.cls_str i s) = Ok true
  /\ StrTypes.py_ne (StrTypes.mk_pystr StrTypes.cls_str i s)
                    (StrTypes.mk_pystr StrTypes.cls_Uri j s) = Ok false
  /\ StrTypes.py_ne (StrTypes.mk_pystr StrTypes.cls_Uri i s)
                    (StrTypes.mk_pystr StrTypes.cls_Bin j s) = Ok false
  /\ StrTypes.py_ne (StrTypes.mk_pystr StrTypes.cls_str i s)
                    (StrTypes.mk_pystr StrTypes.cls_Bin j s) = Ok false.
Proof.
  repeat split.
  - apply Uri_eq_str.
  - apply str_eq_Uri.
  - apply Bin_eq_str.
  - apply ne_is_str_ne.
  - apply ne_is_str_ne.
  - apply ne_is_str_ne.
Qed.

(** The same at the text ["a"], with the one comparison that does come out
    as the claim has it: [Uri("a") == Bin("a")] is false. *)
Example wrappers_at_a :
  StrTypes.py_eq (StrTypes.mk_pystr StrTypes.cls_Uri 1 "a")
                 (StrTypes.mk_pystr StrTypes.cls_str 2 "a") = Ok true
  /\ StrTypes.py_ne (StrTypes.mk_pystr StrTypes.cls_Uri 1 "a")
                    (StrTypes.mk_pystr StrTypes.cls_Bin 3 "a") = Ok false
  /\ StrTypes.py_eq (StrTypes.mk_pystr StrTypes.cls_Uri 1 "a")
                    (StrTypes.mk_pystr StrTypes.cls_Bin 3 "a") = Ok false.
Proof. repeat split; reflexivity. Qed.

(** ** Quantity comparisons *)

Section QtyFacts.
Import QtyOps.

Lemma compare_same_unit (op : cmpop) (a b : Qty) :
  qty_unit a = qty_unit b ->
  compare op a b = Ok (operator_of op (qty_value a) (qty_value b)).
Proof.
  intros Hu. symmetry in Hu. apply opt_str_eqb_eq in Hu.
  destruct op; simpl;
    unfold __lt__, __le__, __eq__, __ne__, __gt__, __ge__, _cmp_op;
    now rewrite Hu.
Qed.

Lemma compare_units_differ (op : cmpop) (a b : Qty) :
  qty_unit a <> qty_unit b -> compare op a b = Raise TypeError.
Proof.
  intros Hu.
  assert (Hb : opt_str_eqb (qty_unit b) (qty_unit a) = false)
    by (apply opt_str_eqb_neq; congruence).
  destruct op; simpl;
    unfold __lt__, __le__, __eq__, __ne__, __gt__, __ge__, _cmp_op;
    now rewrite Hb.
Qed.

Lemma eq_true_iff (a b : Qty) :
  compare Py_EQ a b = Ok true
  <-> PrimFloat.eqb (qty_value a) (qty_value b) = true
      /\ qty_unit a = qty_unit b.
Proof.
  destruct (opt_str_eqb (qty_unit a) (qty_unit b)) eqn:Hu.
  - apply opt_str_eqb_eq in Hu.
    rewrite (compare_same_unit Py_EQ a b Hu). simpl.
    split; [intros [= ->]; now split | intros [-> _]; reflexivity].
  - apply opt_str_eqb_neq in Hu.
    rewrite (compare_units_differ Py_EQ a b Hu).
    split; [discriminate | intros [_ ?]; contradiction].
Qed.

End QtyFacts.

(** C2, as the code has it.  For two Numbers with the same unit label each
    of the six comparisons returns the comparison of the two floats, so
    [==] is true iff the floats compare equal and the labels are equal, and
    a NaN is unequal to itself; for two Numbers whose unit labels differ
    each of the six comparisons raises [TypeError]. *)
Theorem C2_quantity_comparison (a b : Qty) :
  (qty_unit a = qty_unit b ->
   forall op, QtyOps.compare op a b
              = Ok (QtyOps.operator_of op (qty_value a) (qty_value b)))
  /\ (QtyOps.compare Py_EQ a b = Ok true
      <-> PrimFloat.eqb (qty_value a) (qty_value b) = true
          /\ qty_unit a = qty_unit b)
  /\ (forall u, QtyOps.compare Py_EQ (mk_Qty nan u) (mk_Qty nan u) = Ok false
                /\ QtyOps.compare Py_NE (mk_Qty nan u) (mk_Qty nan u)
                   = Ok true)
  /\ (qty_unit a <> qty_unit b ->
      forall op, QtyOps.compare op a b = Raise TypeError).
Proof.
  split; [| split; [| split]].
  - intros Hu op. now apply compare_same_unit.
  - apply eq_true_iff.
  - intros u. split.
    + now rewrite (compare_same_unit Py_EQ (mk_Qty nan u) (mk_Qty nan u)).
    + now rewrite (compare_same_unit Py_NE (mk_Qty nan u) (mk_Qty nan u)).
  - intros Hu op. now apply compare_units_differ.
Qed.

(** One metre against two metres, and one metre against one second. *)
Lemma C2_quantity_comparison_witness :
  QtyOps.compare Py_LT (mk_Qty 1 (Some "m")) (mk_Qty 2 (Some "m")) = Ok true
  /\ QtyOps.compare Py_EQ (mk_Qty 1 (Some "m")) (mk_Qty 1 (Some "s"))
     = Raise TypeError.
Proof.
  split.
  - apply (proj1 (C2_quantity_comparison
                    (mk_Qty 1 (Some "m")) (mk_Qty 2 (Some "m")))
                 eq_refl Py_LT).
  - apply (proj2 (proj2 (proj2 (C2_quantity_comparison
                    (mk_Qty 1 (Some "m")) (mk_Qty 1 (Some "s")))))).
    simpl. discriminate.
Defined.

(** [Quantity(1.0, "m") == Quantity(1.0, "s")] does not return false: it
    raises, and so do the five other comparisons. *)
Lemma C2_counterexample :
  let a := mk_Qty 1 (Some "m") in
  let b := mk_Qty 1 (Some "s") in
  qty_unit a <> qty_unit b
  /\ QtyOps.compare Py_EQ a b = Raise TypeError
  /\ QtyOps.compare Py_EQ a b <> Ok false
  /\ forall op, raises (QtyOps.compare op a b) = true.
Proof.
  simpl. repeat split; try discriminate.
  intros op. now destruct op.
Qed.

(** ** The CSV cell parser *)

Section CsvFacts.
Import csvparser.

Variable zinc_parse_scalar : string -> string -> result pyvalue.

Let parse_scalar := csvparser.parse_scalar zinc_parse_scalar.
Let parse_cells := csvparser.parse_cells zinc_parse_scalar.
Let parse_row := csvparser.parse_row zinc_parse_scalar.

Lemma parse_scalar_by_kind (scalar version : string) :
  parse_scalar scalar version =
  match kind_of scalar with
  | kind_empty => Ok _EMPTY
  | kind_marker => Ok (Scalar (PySingleton MARKER))
  | kind_true => Ok (Scalar (PyBool true))
  | kind_false => Ok (Scalar (PyBool false))
  | kind_ref =>
    r ← RefOps.__init__ (split_space_1 (drop1 scalar)).1
                        (split_space_1 (drop1 scalar)).2 false;
    Ok (Scalar (PyRef r))
  | kind_zinc =>
    match zinc_parse_scalar scalar version with
    | Ok v => Ok (Scalar v)
    | Raise ZincParseException => Ok (Scalar (PyStr scalar))
    | Raise e => Raise e
    end
  end.
Proof.
  unfold parse_scalar, csvparser.parse_scalar, kind_of.
  repeat (destruct (String.eqb scalar _); [reflexivity |]).
  destruct (first_is "@" scalar); [| reflexivity].
  now destruct (split_space_1 (drop1 scalar)).
Qed.

(** Only the empty cell gives the sentinel. *)
Lemma parse_scalar_EMPTY (scalar version : string) :
  parse_scalar scalar version = Ok _EMPTY -> scalar = "".
Proof.
  rewrite parse_scalar_by_kind. unfold kind_of.
  destruct (String.eqb scalar "") eqn:He; [now apply String.eqb_eq in He |].
  repeat (destruct (String.eqb scalar _); [discriminate |]).
  destruct (first_is "@" scalar).
  - destruct (RefOps.__init__ _ _ _); discriminate.
  - destruct (zinc_parse_scalar scalar version) as [v|[]]; discriminate.
Qed.

Lemma parse_cells_empty_cell (headers : list string) (idx : nat)
    (row : list string) (a_map : gmap string pyvalue) :
  parse_cells headers idx ("" :: row) a_map
  = parse_cells headers (S idx) row a_map.
Proof. reflexivity. Qed.

(** A cell that is not empty, stands beyond the last header and is reached
    by the loop ends the row with the parse exception. *)
Lemma parse_cells_surplus (headers pre : list string) (val : string)
    (post : list string) :
  val <> "" ->
  Forall (fun c => raises (parse_scalar c VER_3_0) = false) (pre ++ [val]) ->
  forall (idx : nat) (a_map : gmap string pyvalue),
    (length headers <= idx + length pre)%nat ->
    parse_cells headers idx (pre ++ val :: post)%list a_map
    = Raise ZincParseException.
Proof.
  intros Hval. induction pre as [|c pre IH]; intros Hok idx a_map Hlen.
  - simpl in *. apply Forall_cons in Hok as [Hok _].
    fold parse_scalar.
    destruct (parse_scalar val VER_3_0) as [[|v]|e] eqn:Hp; try discriminate.
    + now apply parse_scalar_EMPTY in Hp.
    + simpl. replace (length headers <=? idx)%nat with true; [reflexivity |].
      symmetry. apply Nat.leb_le. lia.
  - simpl in *. apply Forall_cons in Hok as [Hc Hok].
    fold parse_scalar.
    destruct (parse_scalar c VER_3_0) as [[|v]|e] eqn:Hp; try discriminate;
      simpl.
    + apply IH; [assumption | lia].
    + destruct (length headers <=? idx)%nat; [reflexivity |].
      destruct v; apply IH; (assumption || lia).
Qed.

Section WithGrid.

Variable Grid : Type.
Variable Grid_new :
  string -> list (string * gmap string pyvalue) -> result Grid.
Variable Grid_append : Grid -> gmap string pyvalue -> result Grid.
Variable reader : string -> list (list string).

Let parse_rows := csvparser.parse_rows zinc_parse_scalar Grid Grid_append.
Let parse_grid :=
  csvparser.parse_grid zinc_parse_scalar Grid Grid_new Grid_append reader.

Lemma parse_rows_app (headers : list string) (before rest : list (list string)) :
  forall grid : Grid,
    parse_rows headers grid (before ++ rest)%list
    = (g ← parse_rows headers grid before; parse_rows headers g rest).
Proof.
  induction before as [|r before IH]; intros grid; [reflexivity |].
  simpl. destruct (csvparser.parse_row zinc_parse_scalar headers r);
    [| reflexivity].
  simpl. destruct (Grid_append grid a); [| reflexivity].
  simpl. apply IH.
Qed.

Lemma parse_grid_surplus (grid_str : string) (headers : list string)
    (before after : list (list string)) (pre post : list string)
    (val : string) (g0 g1 : Grid) :
  reader grid_str
  = (headers :: before ++ (pre ++ val :: post) :: after)%list ->
  Grid_new VER_3_0 (map (fun x => (x, ∅)) headers) = Ok g0 ->
  parse_rows headers g0 before = Ok g1 ->
  (length headers <= length pre)%nat ->
  val <> "" ->
  Forall (fun c => raises (parse_scalar c VER_3_0) = false) (pre ++ [val]) ->
  parse_grid grid_str = Raise ZincParseException.
Proof.
  intros Hread Hnew Hbefore Hlen Hval Hok.
  unfold parse_grid, csvparser.parse_grid. rewrite Hread, Hnew. simpl.
  fold parse_rows. rewrite parse_rows_app, Hbefore. simpl.
  unfold csvparser.parse_row. fold parse_cells.
  now rewrite parse_cells_surplus.
Qed.

End WithGrid.

End CsvFacts.

(** C3, as the code has it.  When a data row holds a cell that is not
    empty at a position beyond the last header, and the cells of that row
    up to it are parsed without an error of their own, [parse_grid] raises
    the parse exception (given that the grid was built and the rows before
    were read).  Surplus cells that are empty are skipped. *)
Theorem C3_surplus_cell_raises
    (zinc_parse_scalar : string -> string -> result pyvalue)
    (Grid : Type)
    (Grid_new : string -> list (string * gmap string pyvalue) -> result Grid)
    (Grid_append : Grid -> gmap string pyvalue -> result Grid)
    (reader : string -> list (list string))
    (grid_str : string) (headers : list string)
    (before after : list (list string)) (pre post : list string)
    (val : string) (g0 g1 : Grid) :
  reader grid_str
  = (headers :: before ++ (pre ++ val :: post) :: after)%list ->
  Grid_new csvparser.VER_3_0 (map (fun x => (x, ∅)) headers) = Ok g0 ->
  csvparser.parse_rows zinc_parse_scalar Grid Grid_append headers g0 before
  = Ok g1 ->
  (length headers <= length pre)%nat ->
  val <> "" ->
  Forall (fun c => raises (csvparser.parse_scalar zinc_parse_scalar c
                             csvparser.VER_3_0) = false) (pre ++ [val]) ->
  csvparser.parse_grid zinc_parse_scalar Grid Grid_new Grid_append reader
    grid_str
  = Raise ZincParseException
  /\ forall (idx : nat) (row : list string) (a_map : gmap string pyvalue),
       csvparser.parse_cells zinc_parse_scalar headers idx ("" :: row) a_map
       = csvparser.parse_cells zinc_parse_scalar headers (S idx) row a_map.
Proof.
  intros Hread Hnew Hbefore Hlen Hval Hok. split.
  - eapply parse_grid_surplus; eassumption.
  - intros. apply parse_cells_empty_cell.
Qed.

(** Headers [a]; first data row [true] (read and appended), second data
    row [true,false]: the cell [false] stands beyond the header. *)
Lemma C3_surplus_cell_raises_witness :
  csvparser.parse_grid (fun _ _ => Raise ZincParseException)
    csvparser.SpecGrid csvparser.SpecGrid_new csvparser.SpecGrid_append
    csvparser.reader_unquoted
    (String.append "a" (String.append csvparser.nl
      (String.append "true" (String.append csvparser.nl "true,false"))))
  = Raise ZincParseException.
Proof.
  refine (proj1 (C3_surplus_cell_raises
    (fun _ _ => Raise ZincParseException)
    csvparser.SpecGrid csvparser.SpecGrid_new csvparser.SpecGrid_append
    csvparser.reader_unquoted _
    ["a"] [["true"]] [] ["true"] [] "false"
    (csvparser.mk_SpecGrid csvparser.VER_3_0 [("a", ∅)] [])
    (csvparser.mk_SpecGrid csvparser.VER_3_0 [("a", ∅)]
       [{["a" := PyBool true]}])
    _ _ _ _ _ _)).
  - reflexivity.
  - reflexivity.
  - vm_compute. reflexivity.
  - simpl. lia.
  - discriminate.
  - repeat constructor.
Defined.

(** Headers [a], data row [true,] (two cells, the second one empty): the
    row has more cells than there are headers and the grid is returned. *)
Lemma C3_counterexample :
  let text := String.append "a" (String.append csvparser.nl "true,") in
  csvparser.reader_unquoted text = [["a"]; ["true"; ""]]
  /\ (length ["a"] < length ["true"; ""])%nat
  /\ csvparser.parse_grid (fun _ _ => Raise ZincParseException)
       csvparser.SpecGrid csvparser.SpecGrid_new csvparser.SpecGrid_append
       csvparser.reader_unquoted text
     = Ok (csvparser.mk_SpecGrid csvparser.VER_3_0 [("a", ∅)]
             [{["a" := PyBool true]}]).
Proof.
  simpl. split; [reflexivity |]. split; [lia |]. vm_compute. reflexivity.
Qed.

(** The same for every Zinc parser: no cell of that row reaches it. *)
Remark surplus_empty_cell_any_zinc
    (zinc_parse_scalar : string -> string -> result pyvalue) :
  csvparser.parse_grid zinc_parse_scalar
    csvparser.SpecGrid csvparser.SpecGrid_new csvparser.SpecGrid_append
    csvparser.reader_unquoted
    (String.append "a" (String.append csvparser.nl "true,"))
  = Ok (csvparser.mk_SpecGrid csvparser.VER_3_0 [("a", ∅)]
          [{["a" := PyBool true]}]).
Proof. vm_compute. reflexivity. Qed.

(** ** Names of Refs *)

Section RefNameFacts.
Import RefOps.

Lemma all_name_chars_more (s : string) :
  all_name_chars s = true -> more_then_dollar s = true.
Proof.
  induction s as [|c s IH]; [reflexivity |].
  simpl. intros [Hc Hs]%andb_true_iff.
  rewrite Hc, (IH Hs). simpl. apply orb_true_r.
Qed.

Lemma valid_name_match (s : string) :
  valid_name s = true -> re_match_name s = true.
Proof.
  unfold valid_name. destruct s as [|c s]; [discriminate |].
  simpl. intros [Hc Hs]%andb_true_iff.
  now rewrite Hc, all_name_chars_more.
Qed.

Lemma newline_not_name_char : name_char newline = false.
Proof. reflexivity. Qed.

Lemma more_all_name_chars (s : string) :
  more_then_dollar s = true ->
  ends_with_newline s = false ->
  all_name_chars s = true.
Proof.
  induction s as [|c s IH]; [reflexivity |].
  intros Hm He.
  assert (Hs : s <> EmptyString -> ends_with_newline s = false)
    by (intros Hne; simpl in He; destruct s; [congruence | exact He]).
  cbn [more_then_dollar] in Hm. apply orb_true_iff in Hm as [Hd | Hm].
  - simpl in Hd. destruct s; [| discriminate].
    simpl in He. congruence.
  - apply andb_true_iff in Hm as [Hc Hm]. simpl. rewrite Hc. simpl.
    destruct s as [|d s]; [reflexivity |].
    apply IH; [assumption | apply Hs; discriminate].
Qed.

Lemma match_valid_name (s : string) :
  re_match_name s = true ->
  ends_with_newline s = false ->
  valid_name s = true.
Proof.
  destruct s as [|c s]; [discriminate |].
  intros Hm He. unfold valid_name. simpl.
  apply andb_true_iff in Hm as [Hc Hm]. rewrite Hc. simpl.
  destruct s as [|d s]; [reflexivity |].
  apply more_all_name_chars; [assumption |]. exact He.
Qed.

Lemma init_valid (name0 : string) (value0 : option string) (hv : bool) :
  valid_name name0 = true ->
  __init__ name0 value0 hv = Ok (mk_Ref name0 value0 (hv || is_not_None value0)).
Proof.
  intros Hv. unfold __init__. now rewrite (valid_name_match _ Hv).
Qed.

Lemma init_invalid (name0 : string) (value0 : option string) (hv : bool) :
  valid_name name0 = false ->
  ends_with_newline name0 = false ->
  __init__ name0 value0 hv = Raise AssertionError.
Proof.
  intros Hv He. unfold __init__.
  destruct (re_match_name name0) eqn:Hm; [| reflexivity].
  rewrite (match_valid_name _ Hm He) in Hv. discriminate.
Qed.

End RefNameFacts.

(** C5, as the code has it.  [Ref.__init__] of [haystackapi] checks the
    name with an [assert]: a name made of one or more characters of
    [[A-Za-z0-9_:\-.~]] is always accepted and gives the Ref with that name,
    and a name that is empty or holds a character outside the class, and
    does not end with a line break, fails with [AssertionError] (the code
    has no class for structural violations). *)
Theorem C5_Ref_name_checked (name0 : string) (value0 : option string)
    (has_value0 : bool) :
  (RefOps.valid_name name0 = true ->
   RefOps.__init__ name0 value0 has_value0
   = Ok (mk_Ref name0 value0 (has_value0 || RefOps.is_not_None value0)))
  /\ (RefOps.valid_name name0 = false ->
      RefOps.ends_with_newline name0 = false ->
      RefOps.__init__ name0 value0 has_value0 = Raise AssertionError).
Proof.
  split.
  - apply init_valid.
  - apply init_invalid.
Qed.

Lemma C5_Ref_name_checked_witness :
  RefOps.__init__ "site-1.a:b~c_D" (Some "Site 1") false
  = Ok (mk_Ref "site-1.a:b~c_D" (Some "Site 1") true)
  /\ RefOps.__init__ "a b" None false = Raise AssertionError
  /\ RefOps.__init__ "" None false = Raise AssertionError.
Proof.
  split; [| split].
  - apply (proj1 (C5_Ref_name_checked "site-1.a:b~c_D" (Some "Site 1") false)).
    reflexivity.
  - apply (proj2 (C5_Ref_name_checked "a b" None false)); reflexivity.
  - apply (proj2 (C5_Ref_name_checked "" None false)); reflexivity.
Defined.

(** Two ways in which the code departs from the claim: a name with a
    space fails with [AssertionError], the failure of an [assert], not
    with an error of the grid layer; and the name [a] followed by a line
    break holds a character outside the class and is accepted ([$] also
    matches before a final line break). *)
Lemma C5_counterexample :
  let a_newline := String "a" (String RefOps.newline EmptyString) in
  RefOps.valid_name "a b" = false
  /\ RefOps.__init__ "a b" None false = Raise AssertionError
  /\ RefOps.valid_name a_newline = false
  /\ RefOps.__init__ a_newline None false = Ok (mk_Ref a_newline None false).
Proof. repeat split. Qed.

(** The constructor of the older [hszinc] module accepts every name. *)
Remark hszinc_Ref_unchecked (name0 : string) (value0 : option string)
    (has_value0 : bool) :
  RefOps.hszinc___init__ name0 value0 has_value0
  = Ok (mk_Ref name0 value0 (has_value0 || RefOps.is_not_None value0)).
Proof. reflexivity. Qed.

(** ** The rule table of the CSV cell parser *)

Section CellRules.
Import csvparser.

Variable zinc_parse_scalar : string -> string -> result pyvalue.

Let parse_scalar := csvparser.parse_scalar zinc_parse_scalar.

Lemma no_space_in_name (s : string) :
  RefOps.all_name_chars s = true ->
  forall rest : option string,
    split_space_1
      (match rest with
       | Some d => String.append s (String " " d)
       | None => s
       end)
    = (s, rest).
Proof.
  induction s as [|c s IH]; intros Hall rest.
  - now destruct rest.
  - simpl in Hall. apply andb_true_iff in Hall as [Hc Hs].
    assert (Hsp : Ascii.eqb c " " = false).
    { destruct (Ascii.eqb_spec c " ") as [-> |]; [discriminate | reflexivity]. }
    specialize (IH Hs rest).
    destruct rest as [d|]; simpl; rewrite Hsp; simpl in IH; now rewrite IH.
Qed.

Lemma at_cell_is_ref (rest : string) : kind_of (String "@" rest) = kind_ref.
Proof. reflexivity. Qed.

Lemma at_cell (rest version : string) :
  parse_scalar (String "@" rest) version
  = (r ← RefOps.__init__ (split_space_1 rest).1 (split_space_1 rest).2 false;
     Ok (Scalar (PyRef r))).
Proof.
  unfold parse_scalar. now rewrite parse_scalar_by_kind, at_cell_is_ref.
Qed.

Lemma ref_cell (name0 : string) (display : option string) (version : string) :
  RefOps.valid_name name0 = true ->
  parse_scalar
    (String "@" (match display with
                 | Some d => String.append name0 (String " " d)
                 | None => name0
                 end)) version
  = Ok (Scalar (PyRef (mk_Ref name0 display (RefOps.is_not_None display)))).
Proof.
  intros Hv. unfold parse_scalar.
  rewrite parse_scalar_by_kind, at_cell_is_ref. cbn [drop1].
  assert (Ha : RefOps.all_name_chars name0 = true)
    by (unfold RefOps.valid_name in Hv; now apply andb_true_iff in Hv).
  rewrite (no_space_in_name name0 Ha display). cbn [fst snd].
  now rewrite (init_valid name0 display false Hv).
Qed.

Lemma bad_ref_cell (rest version : string) :
  RefOps.valid_name (split_space_1 rest).1 = false ->
  RefOps.ends_with_newline (split_space_1 rest).1 = false ->
  parse_scalar (String "@" rest) version = Raise AssertionError.
Proof.
  intros Hv Hn. rewrite at_cell.
  now rewrite (init_invalid _ _ false Hv Hn).
Qed.

Lemma good_ref_cell (rest version : string) :
  RefOps.valid_name (split_space_1 rest).1 = true ->
  parse_scalar (String "@" rest) version
  = Ok (Scalar (PyRef (mk_Ref (split_space_1 rest).1 (split_space_1 rest).2
                         (RefOps.is_not_None (split_space_1 rest).2)))).
Proof.
  intros Hv. rewrite at_cell.
  now rewrite (init_valid _ _ false Hv).
Qed.

Lemma other_cell (scalar version : string) :
  scalar <> "" -> scalar <> check_mark ->
  scalar <> "true" -> scalar <> "false" ->
  first_is "@" scalar = false ->
  parse_scalar scalar version
  = match zinc_parse_scalar scalar version with
    | Ok v => Ok (Scalar v)
    | Raise ZincParseException => Ok (Scalar (PyStr scalar))
    | Raise e => Raise e
    end.
Proof.
  intros H1 H2 H3 H4 H5. unfold parse_scalar.
  rewrite parse_scalar_by_kind. unfold kind_of.
  apply String.eqb_neq in H1, H2, H3, H4.
  now rewrite H1, H2, H3, H4, H5.
Qed.

End CellRules.

(** C4, as the code has it.  The cell parser follows the rule table: the
    empty cell is the sentinel for absence and leaves the row's map
    untouched, the check mark is the Marker, [true] and [false] are the
    Bools, and any cell that is none of these and does not start with [@]
    is what the Zinc scalar parser makes of it, or the cell itself as a
    string when that parser raises its parse exception.  A cell starting
    with [@] is split at its first space into a name and an optional
    display: when the name is a valid Ref name the cell is the Ref with
    that name and display (so [@name] and [@name display] give that Ref),
    and when the name is not valid (and does not end with a line break)
    the cell is refused with the [AssertionError] of the Ref constructor.
    Under the headers [a,b,c,d] the row [✓,,true,@x] gives
    [{a: Marker, c: True, d: Ref("x")}], without [b]. *)
Theorem C4_cell_rule_table
    (zinc_parse_scalar : string -> string -> result pyvalue)
    (version : string) :
  csvparser.parse_scalar zinc_parse_scalar "" version = Ok csvparser._EMPTY
  /\ csvparser.parse_scalar zinc_parse_scalar csvparser.check_mark version
     = Ok (csvparser.Scalar (PySingleton MARKER))
  /\ csvparser.parse_scalar zinc_parse_scalar "true" version
     = Ok (csvparser.Scalar (PyBool true))
  /\ csvparser.parse_scalar zinc_parse_scalar "false" version
     = Ok (csvparser.Scalar (PyBool false))
  /\ (forall rest : string,
        RefOps.valid_name (csvparser.split_space_1 rest).1 = true ->
        csvparser.parse_scalar zinc_parse_scalar (String "@" rest) version
        = Ok (csvparser.Scalar
                (PyRef (mk_Ref (csvparser.split_space_1 rest).1
                          (csvparser.split_space_1 rest).2
                          (RefOps.is_not_None
                             (csvparser.split_space_1 rest).2)))))
  /\ (forall rest : string,
        RefOps.valid_name (csvparser.split_space_1 rest).1 = false ->
        RefOps.ends_with_newline (csvparser.split_space_1 rest).1 = false ->
        csvparser.parse_scalar zinc_parse_scalar (String "@" rest) version
        = Raise AssertionError)
  /\ (forall (name0 : string) (display : option string),
        RefOps.valid_name name0 = true ->
        csvparser.parse_scalar zinc_parse_scalar
          (String "@" (match display with
                       | Some d => String.append name0 (String " " d)
                       | None => name0
                       end)) version
        = Ok (csvparser.Scalar
                (PyRef (mk_Ref name0 display (RefOps.is_not_None display)))))
  /\ (forall scalar : string,
        scalar <> "" -> scalar <> csvparser.check_mark ->
        scalar <> "true" -> scalar <> "false" ->
        csvparser.first_is "@" scalar = false ->
        csvparser.parse_scalar zinc_parse_scalar scalar version
        = match zinc_parse_scalar scalar version with
          | Ok v => Ok (csvparser.Scalar v)
          | Raise ZincParseException => Ok (csvparser.Scalar (PyStr scalar))
          | Raise e => Raise e
          end)
  /\ (forall (headers : list string) (idx : nat) (row : list string)
        (a_map : gmap string pyvalue),
        csvparser.parse_cells zinc_parse_scalar headers idx ("" :: row) a_map
        = csvparser.parse_cells zinc_parse_scalar headers (S idx) row a_map)
  /\ csvparser.parse_row zinc_parse_scalar ["a"; "b"; "c"; "d"]
       [csvparser.check_mark; ""; "true"; "@x"]
     = Ok (<["a" := PySingleton MARKER]>
             (<["c" := PyBool true]>
                {["d" := PyRef (mk_Ref "x" None false)]}))
  /\ (<["a" := PySingleton MARKER]>
        (<["c" := PyBool true]>
           ({["d" := PyRef (mk_Ref "x" None false)]}
            : gmap string pyvalue))) !! "b" = None.
Proof.
  do 4 (split; [reflexivity |]).
  split; [intros rest; apply good_ref_cell |].
  split; [intros rest; apply bad_ref_cell |].
  split; [intros name0 display; apply ref_cell |].
  split; [intros scalar; apply other_cell |].
  split; [intros; apply parse_cells_empty_cell |].
  split; vm_compute; reflexivity.
Qed.

(** With a Zinc parser that only knows [42]: the cells [@abc Boiler 1],
    [@abc], [@a/b], [42] and [hello]. *)
Lemma C4_cell_rule_table_witness :
  let zinc := fun (s _ : string) =>
    if String.eqb s "42" then Ok (PyQty (mk_Qty 42 None))
    else Raise ZincParseException in
  csvparser.parse_scalar zinc "@abc Boiler 1" csvparser.VER_3_0
  = Ok (csvparser.Scalar (PyRef (mk_Ref "abc" (Some "Boiler 1") true)))
  /\ csvparser.parse_scalar zinc "@abc" csvparser.VER_3_0
     = Ok (csvparser.Scalar (PyRef (mk_Ref "abc" None false)))
  /\ csvparser.parse_scalar zinc "@a/b" csvparser.VER_3_0
     = Raise AssertionError
  /\ csvparser.parse_scalar zinc "42" csvparser.VER_3_0
     = Ok (csvparser.Scalar (PyQty (mk_Qty 42 None)))
  /\ csvparser.parse_scalar zinc "hello" csvparser.VER_3_0
     = Ok (csvparser.Scalar (PyStr "hello")).
Proof.
  intros zinc.
  pose proof (C4_cell_rule_table zinc csvparser.VER_3_0)
    as (_ & _ & _ & _ & Hgood & Hbad & Href & Hother & _).
  split; [| split; [| split; [| split]]].
  - apply (Hgood "abc Boiler 1"). reflexivity.
  - apply (Href "abc" None). reflexivity.
  - apply (Hbad "a/b"); reflexivity.
  - apply (Hother "42"); (discriminate || reflexivity).
  - apply (Hother "hello"); (discriminate || reflexivity).
Defined.

(** The cells [@], [@ x] and [@a/b] start with [@] and are no Ref: the
    parser raises [AssertionError] on each, whatever the Zinc scalar
    parser is (here one that reads every text as a string), and so does
    the reading of a row that holds such a cell. *)
Lemma C4_counterexample :
  let zinc := fun (s _ : string) => Ok (PyStr s) in
  csvparser.first_is "@" "@" = true
  /\ csvparser.parse_scalar zinc "@" csvparser.VER_3_0 = Raise AssertionError
  /\ csvparser.parse_scalar zinc "@ x" csvparser.VER_3_0
     = Raise AssertionError
  /\ csvparser.parse_scalar zinc "@a/b" csvparser.VER_3_0
     = Raise AssertionError
  /\ csvparser.parse_row zinc ["a"; "b"] ["true"; "@"] = Raise AssertionError
  /\ (forall r : Ref,
        csvparser.parse_scalar zinc "@" csvparser.VER_3_0
        <> Ok (csvparser.Scalar (PyRef r))).
Proof. repeat split. discriminate. Qed.

(** The scenario as a whole text, read by [parse_grid]: one row, which
    is the map above. *)
Example S5_as_text :
  csvparser.parse_grid (fun _ _ => Raise ZincParseException)
    csvparser.SpecGrid csvparser.SpecGrid_new csvparser.SpecGrid_append
    csvparser.reader_unquoted
    (String.append "a,b,c,d"
       (String.append csvparser.nl
          (String.append csvparser.check_mark ",,true,@x")))
  = Ok (csvparser.mk_SpecGrid csvparser.VER_3_0
          [("a", ∅); ("b", ∅); ("c", ∅); ("d", ∅)]
          [<["a" := PySingleton MARKER]>
             (<["c" := PyBool true]>
                {["d" := PyRef (mk_Ref "x" None false)]})]).
Proof. vm_compute. reflexivity. Qed.

(** ** Equality, order and hash of Refs *)

Section RefFacts.
Import RefOps.

Lemma key_eqb_eq (k1 k2 : string * bool * option string) :
  key_eqb k1 k2 = true <-> k1 = k2.
Proof.
  destruct k1 as [[n1 h1] v1], k2 as [[n2 h2] v2]. simpl.
  rewrite !andb_true_iff, String.eqb_eq, Bool.eqb_true_iff, opt_str_eqb_eq.
  split; [intros [[-> ->] ->]; reflexivity | intros [= -> -> ->]; auto].
Qed.

Lemma Ref_eq_is_key_eq (a b : Ref) :
  __eq__ a (PyRef b) = Truth (key_eqb (key a) (key b)).
Proof. reflexivity. Qed.

Lemma key_inj (a b : Ref) : key a = key b -> a = b.
Proof. destruct a, b. unfold key. simpl. now intros [= -> -> ->]. Qed.

Lemma Ref_eq_true (a b : Ref) :
  __eq__ a (PyRef b) = Truth true <-> key a = key b.
Proof.
  rewrite <- key_eqb_eq.
  change (__eq__ a (PyRef b)) with (Truth (key_eqb (key a) (key b))).
  split; [intros [= H]; exact H | now intros ->].
Qed.

Lemma Ref_eq_hash (hash_str : string -> Z) (hash_None : Z) (a b : Ref) :
  __eq__ a (PyRef b) = Truth true ->
  __hash__ hash_str hash_None a = __hash__ hash_str hash_None b.
Proof. intros H%Ref_eq_true%key_inj. now subst. Qed.

End RefFacts.

(** C6.  For two Refs, [a == b] is the comparison of the tuples
    [(name, has_value, value)], so it is true iff the tuples are equal;
    the four order methods give what the same comparison of the two names
    gives, whatever the displays; and equal Refs have equal hashes. *)
Theorem C6_Ref_eq_order_hash (hash_str : string -> Z) (hash_None : Z)
    (a b : Ref) :
  RefOps.__eq__ a (PyRef b)
  = Truth (RefOps.key_eqb (RefOps.key a) (RefOps.key b))
  /\ (RefOps.__eq__ a (PyRef b) = Truth true <-> RefOps.key a = RefOps.key b)
  /\ RefOps.__ne__ a (PyRef b)
     = Truth (negb (RefOps.key_eqb (RefOps.key a) (RefOps.key b)))
  /\ RefOps.__lt__ a b = String.ltb (name a) (name b)
  /\ RefOps.__le__ a b = String.leb (name a) (name b)
  /\ RefOps.__gt__ a b = String.ltb (name b) (name a)
  /\ RefOps.__ge__ a b = String.leb (name b) (name a)
  /\ (forall (va vb : option string) (ha hb : bool),
        let a' := mk_Ref (name a) va ha in
        let b' := mk_Ref (name b) vb hb in
        RefOps.__lt__ a' b' = RefOps.__lt__ a b
        /\ RefOps.__le__ a' b' = RefOps.__le__ a b
        /\ RefOps.__gt__ a' b' = RefOps.__gt__ a b
        /\ RefOps.__ge__ a' b' = RefOps.__ge__ a b)
  /\ (RefOps.__eq__ a (PyRef b) = Truth true ->
      RefOps.__hash__ hash_str hash_None a
      = RefOps.__hash__ hash_str hash_None b).
Proof.
  split; [reflexivity |].
  split; [apply Ref_eq_true |].
  do 5 (split; [reflexivity |]).
  split; [intros; repeat split |].
  apply Ref_eq_hash.
Qed.

(** Two Refs built alike from ["abc"] and ["Boiler 1"], with the length of
    a string as its hash. *)
Lemma C6_Ref_eq_order_hash_witness :
  let h := fun s : string => Z.of_nat (String.length s) in
  RefOps.__hash__ h 0 (mk_Ref "abc" (Some "Boiler 1") true)
  = RefOps.__hash__ h 0 (mk_Ref "abc" (Some "Boiler 1") true)
  /\ RefOps.__lt__ (mk_Ref "abc" (Some "z") true) (mk_Ref "abd" None false)
     = true.
Proof.
  intros h. split.
  - apply (C6_Ref_eq_order_hash h 0
             (mk_Ref "abc" (Some "Boiler 1") true)
             (mk_Ref "abc" (Some "Boiler 1") true)).
    reflexivity.
  - pose proof (C6_Ref_eq_order_hash h 0
                  (mk_Ref "abc" (Some "z") true) (mk_Ref "abd" None false))
      as (_ & _ & _ & Hlt & _).
    rewrite Hlt. reflexivity.
Defined.

(** ** Singletons *)

Section SingletonFacts.
Import Singleton.





End SingletonFacts.



(** ** Coordinates *)

Section CoordinateFacts.
Import CoordinateOps.

Lemma builtin_hash_not_minus_1 (h : Z) : builtin_hash h <> -1.
Proof.
  unfold builtin_hash. destruct (Z.eqb_spec h (-1)); [discriminate | assumption].
Qed.

Lemma builtin_hash_other (h : Z) : h <> -1 -> builtin_hash h = h.
Proof.
  unfold builtin_hash. now destruct (Z.eqb_spec h (-1)).
Qed.

Lemma hash_attribute_not_nan (hash_float : float -> Z)
    (hash_nan : Coordinate -> attribute -> Z) (c : Coordinate)
    (a : attribute) :
  PrimFloat.is_nan (getattr c a) = false ->
  hash_attribute hash_float hash_nan c a = hash_float (getattr c a).
Proof. unfold hash_attribute. now intros ->. Qed.

End CoordinateFacts.

(** C9, as the code has it.  [==] on two Coordinates is the conjunction of
    [==] on the latitudes and [==] on the longitudes.  The method
    [__hash__] returns the exclusive or of the hashes of the latitude and
    of the longitude; [hash(c)] is that number, except that it is -2 when
    the exclusive or is -1, and so it is never -1.  The hash of a latitude
    or longitude that is no NaN is the hash of its value. *)
Theorem C9_Coordinate_eq_hash (hash_float : float -> Z)
    (hash_nan : Coordinate -> CoordinateOps.attribute -> Z)
    (a b : Coordinate) :
  let hash_lat :=
    CoordinateOps.hash_attribute hash_float hash_nan a
      CoordinateOps.attr_latitude in
  let hash_long :=
    CoordinateOps.hash_attribute hash_float hash_nan a
      CoordinateOps.attr_longitude in
  CoordinateOps.__eq__ a (PyCoordinate b)
  = Truth (PrimFloat.eqb (latitude a) (latitude b)
           && PrimFloat.eqb (longitude a) (longitude b))
  /\ (CoordinateOps.__eq__ a (PyCoordinate b) = Truth true
      <-> PrimFloat.eqb (latitude a) (latitude b) = true
          /\ PrimFloat.eqb (longitude a) (longitude b) = true)
  /\ CoordinateOps.__ne__ a (PyCoordinate b)
     = Truth (negb (PrimFloat.eqb (latitude a) (latitude b)
                    && PrimFloat.eqb (longitude a) (longitude b)))
  /\ CoordinateOps.__hash__ hash_float hash_nan a = Z.lxor hash_lat hash_long
  /\ (Z.lxor hash_lat hash_long <> -1 ->
      CoordinateOps.hash hash_float hash_nan a = Z.lxor hash_lat hash_long)
  /\ (Z.lxor hash_lat hash_long = -1 ->
      CoordinateOps.hash hash_float hash_nan a = -2)
  /\ CoordinateOps.hash hash_float hash_nan a <> -1
  /\ (PrimFloat.is_nan (latitude a) = false ->
      hash_lat = hash_float (latitude a))
  /\ (PrimFloat.is_nan (longitude a) = false ->
      hash_long = hash_float (longitude a)).
Proof.
  intros hash_lat hash_long.
  split; [reflexivity |]. split.
  { simpl. rewrite <- andb_true_iff.
    split; [now intros [= ->] | now intros ->]. }
  do 2 (split; [reflexivity |]).
  split; [apply builtin_hash_other |].
  split; [unfold CoordinateOps.hash, CoordinateOps.__hash__;
          fold hash_lat hash_long; now intros -> |].
  split; [apply builtin_hash_not_minus_1 |].
  split.
  - apply (hash_attribute_not_nan hash_float hash_nan a
             CoordinateOps.attr_latitude).
  - apply (hash_attribute_not_nan hash_float hash_nan a
             CoordinateOps.attr_longitude).
Qed.

(** [Coordinate(2.0, 1.0)], nowhere a NaN, with the interpreter's hash on
    1.0 and the hash 3 given to 2.0: the hash is 2, the exclusive or of 3
    and 1; and [Coordinate(1.0, -2.0)], whose hash is -2. *)
Lemma C9_Coordinate_eq_hash_witness :
  let hash_float := fun x : float =>
    if PrimFloat.eqb x 2 then 3 else CoordinateOps.hash_float_sample x in
  CoordinateOps.hash hash_float (fun _ _ => 0) (mk_Coordinate 2 1) = 2
  /\ CoordinateOps.hash hash_float (fun _ _ => 0) (mk_Coordinate 1 (-2)) = -2.
Proof.
  intros hash_float.
  pose proof (C9_Coordinate_eq_hash hash_float (fun _ _ => 0)
                (mk_Coordinate 2 1) (mk_Coordinate 2 1))
    as (_ & _ & _ & _ & H1 & _).
  pose proof (C9_Coordinate_eq_hash hash_float (fun _ _ => 0)
                (mk_Coordinate 1 (-2)) (mk_Coordinate 1 (-2)))
    as (_ & _ & _ & _ & _ & H2 & _).
  split.
  - refine (eq_trans (H1 _) _); [discriminate | reflexivity].
  - apply H2. reflexivity.
Defined.

(** [Coordinate(1.0, -2.0)]: the hashes of 1.0 and -2.0 are 1 and -2,
    their exclusive or is -1, and the hash of the Coordinate is -2. *)
Lemma C9_counterexample :
  let c := mk_Coordinate 1 (-2) in
  let hash_float := CoordinateOps.hash_float_sample in
  hash_float (latitude c) = 1
  /\ hash_float (longitude c) = -2
  /\ Z.lxor (hash_float (latitude c)) (hash_float (longitude c)) = -1
  /\ CoordinateOps.hash hash_float (fun _ _ => 0) c = -2
  /\ CoordinateOps.hash hash_float (fun _ _ => 0) c
     <> Z.lxor (hash_float (latitude c)) (hash_float (longitude c)).
Proof. repeat split. discriminate. Qed.

Example Coordinate_samples :
  CoordinateOps.__eq__ (mk_Coordinate 1.5 (-2)) (PyCoordinate (mk_Coordinate 1.5 (-2)))
  = Truth true
  /\ CoordinateOps.__eq__ (mk_Coordinate 1.5 (-2)) (PyCoordinate (mk_Coordinate 1.5 2))
     = Truth false
  /\ CoordinateOps.__eq__ (mk_Coordinate nan 0) (PyCoordinate (mk_Coordinate nan 0))
     = Truth false.
Proof. repeat split. Qed.

(** ** XStr *)

Section XStrFacts.
Import XStrOps.

Lemma bytes_eqb_refl (b : list Byte.byte) : bytes_eqb b b = true.
Proof.
  induction b as [|x b IH]; [reflexivity |].
  simpl. rewrite IH, andb_true_r. now apply Byte.byte_dec_lb.
Qed.

Lemma bytes_eqb_eq (a b : list Byte.byte) : bytes_eqb a b = true <-> a = b.
Proof.
  split; [| intros ->; apply bytes_eqb_refl].
  revert b. induction a as [|x a IH]; intros [|y b]; simpl;
    try discriminate; [reflexivity |].
  intros [Hxy Hab]%andb_true_iff.
  apply Byte.byte_dec_bl in Hxy. apply IH in Hab. congruence.
Qed.

Variables fromhex b64decode : string -> result (list Byte.byte).

Lemma hex_b64_same_bytes (s t : string) (bs : list Byte.byte) :
  fromhex s = Ok bs ->
  b64decode t = Ok bs ->
  exists x y : XStr,
    __init__ fromhex b64decode "hex" s = Ok x
    /\ __init__ fromhex b64decode "b64" t = Ok y
    /\ encoding x = "hex" /\ encoding y = "b64"
    /\ __eq__ x (PyXStr y) = Truth true.
Proof.
  intros Hs Ht.
  exists (mk_XStr "hex" (data_bytearray bs)), (mk_XStr "b64" (data_bytes bs)).
  unfold __init__. simpl. rewrite Hs, Ht. simpl.
  now rewrite bytes_eqb_refl.
Qed.

End XStrFacts.

(** C10.  [==] on two XStr compares their [data] and nothing else: the
    result is the comparison of the two [data] attributes, it does not
    change when the [encoding] fields are replaced, and an XStr built from
    hexadecimal text equals one built from base64 text whenever the two
    texts decode to the same bytes. *)
Theorem C10_XStr_eq_on_data
    (fromhex b64decode : string -> result (list Byte.byte)) :
  (forall x y : XStr,
     XStrOps.__eq__ x (PyXStr y) = Truth (XStrOps.data_eqb (data x) (data y)))
  /\ (forall (x y : XStr) (e1 e2 : string),
        XStrOps.__eq__ (mk_XStr e1 (data x)) (PyXStr (mk_XStr e2 (data y)))
        = XStrOps.__eq__ x (PyXStr y))
  /\ (forall (s t : string) (bs : list Byte.byte),
        fromhex s = Ok bs ->
        b64decode t = Ok bs ->
        exists hx bx : XStr,
          XStrOps.__init__ fromhex b64decode "hex" s = Ok hx
          /\ XStrOps.__init__ fromhex b64decode "b64" t = Ok bx
          /\ encoding hx = "hex" /\ encoding bx = "b64"
          /\ XStrOps.__eq__ hx (PyXStr bx) = Truth true).
Proof.
  split; [reflexivity |]. split; [reflexivity |].
  intros s t bs. apply hex_b64_same_bytes.
Qed.

(** With decoders that know the hexadecimal text [00] and the base64 text
    [AA==], both of which are the single byte zero. *)
Lemma C10_XStr_eq_on_data_witness :
  let fromhex := fun s : string =>
    if String.eqb s "00" then Ok [Byte.x00] else Raise (OtherError "ValueError") in
  let b64decode := fun s : string =>
    if String.eqb s "AA==" then Ok [Byte.x00]
    else Raise (OtherError "binascii.Error") in
  exists hx bx : XStr,
    XStrOps.__init__ fromhex b64decode "hex" "00" = Ok hx
    /\ XStrOps.__init__ fromhex b64decode "b64" "AA==" = Ok bx
    /\ encoding hx = "hex" /\ encoding bx = "b64"
    /\ XStrOps.__eq__ hx (PyXStr bx) = Truth true.
Proof.
  intros fromhex b64decode.
  apply (proj2 (proj2 (C10_XStr_eq_on_data fromhex b64decode))
           "00" "AA==" [Byte.x00]); reflexivity.
Defined.

Example XStr_samples :
  XStrOps.__eq__ (mk_XStr "hex" (data_bytearray [Byte.x00]))
                 (PyXStr (mk_XStr "b64" (data_bytes [Byte.x00]))) = Truth true
  /\ XStrOps.__eq__ (mk_XStr "hex" (data_bytearray [Byte.x00]))
                    (PyXStr (mk_XStr "hex" (data_bytearray [Byte.x01])))
     = Truth false
  /\ XStrOps.__eq__ (mk_XStr "text" (data_str "00"))
                    (PyXStr (mk_XStr "hex" (data_bytearray [Byte.x00])))
     = Truth false
  /\ XStrOps.__eq__ (mk_XStr "text" (data_str "00")) (PyStr "00")
     = NotImplemented.
Proof. repeat split. Qed.

(** ** Choosing the response format *)

Section NegotiationFacts.
Import ops.

Lemma insert_sorted_head (w : Q) (x : AcceptableType)
    (l : list AcceptableType) :
  Qeq_bool (weight x) w = true ->
  all_weigh w l = true ->
  insert_sorted x l = x :: l.
Proof.
  intros Hx Hl. destruct l as [|y l]; [reflexivity |].
  simpl in *. apply andb_true_iff in Hl as [Hy _].
  apply Qeq_bool_iff in Hx, Hy.
  unfold acceptable_lt.
  replace (Qle_bool (weight y) (weight x)) with true; [reflexivity |].
  symmetry. apply Qle_bool_iff. rewrite Hx, Hy. apply Qle_refl.
Qed.

(** Items of one weight stay in the order of the header. *)
Lemma sorted_reverse_same_weight (w : Q) (l : list AcceptableType) :
  all_weigh w l = true -> sorted_reverse l = l.
Proof.
  induction l as [|x l IH]; [reflexivity |].
  intros Hl. simpl in Hl. apply andb_true_iff in Hl as [Hx Hl].
  simpl. fold (sorted_reverse l). rewrite (IH Hl).
  now apply (insert_sorted_head w).
Qed.

Lemma acceptable_lt_true (x y : AcceptableType) :
  acceptable_lt x y = true -> (weight x < weight y)%Q.
Proof.
  unfold acceptable_lt. intros H%negb_true_iff.
  apply Qnot_le_lt. intros Hle%Qle_bool_iff. congruence.
Qed.

Lemma acceptable_lt_false (x y : AcceptableType) :
  acceptable_lt x y = false -> not_lighter x y.
Proof.
  unfold acceptable_lt, not_lighter. intros H%negb_false_iff.
  now apply Qle_bool_iff.
Qed.

(** The sort keeps the items of the header. *)
Lemma insert_sorted_perm (x : AcceptableType) (l : list AcceptableType) :
  Permutation (insert_sorted x l) (x :: l).
Proof.
  induction l as [|y l IH]; [reflexivity |].
  simpl. destruct (acceptable_lt x y); [| reflexivity].
  rewrite IH. apply perm_swap.
Qed.

Lemma sorted_reverse_perm (l : list AcceptableType) :
  Permutation (sorted_reverse l) l.
Proof.
  induction l as [|x l IH]; [reflexivity |].
  simpl. fold (sorted_reverse l). rewrite insert_sorted_perm.
  now apply perm_skip.
Qed.

(** The sort puts the weights in descending order. *)
Lemma insert_sorted_sorted (x : AcceptableType) (l : list AcceptableType) :
  StronglySorted not_lighter l ->
  StronglySorted not_lighter (insert_sorted x l).
Proof.
  induction 1 as [|y l Hs IH Hall]; simpl.
  - repeat constructor.
  - destruct (acceptable_lt x y) eqn:E.
    + constructor; [exact IH |].
      apply (Permutation_Forall (Permutation_sym (insert_sorted_perm x l))).
      constructor; [| exact Hall].
      apply acceptable_lt_true in E. unfold not_lighter.
      now apply Qlt_le_weak.
    + apply acceptable_lt_false in E.
      constructor; [now constructor |].
      constructor; [exact E |].
      eapply List.Forall_impl; [| exact Hall].
      intros z Hz. unfold not_lighter in *. now apply (Qle_trans _ (weight y)).
Qed.

Lemma sorted_reverse_sorted (l : list AcceptableType) :
  StronglySorted not_lighter (sorted_reverse l).
Proof.
  induction l as [|x l IH]; [constructor |].
  simpl. fold (sorted_reverse l). now apply insert_sorted_sorted.
Qed.

(** The sort is stable: the items of one weight keep their order. *)
Lemma of_weight_insert (w : Q) (x : AcceptableType)
    (l : list AcceptableType) :
  of_weight w (insert_sorted x l) = of_weight w (x :: l).
Proof.
  induction l as [|y l IH]; [reflexivity |].
  simpl. destruct (acceptable_lt x y) eqn:E; [| reflexivity].
  unfold of_weight in *. simpl in *. rewrite IH.
  destruct (Qeq_bool (weight y) w) eqn:Hy, (Qeq_bool (weight x) w) eqn:Hx;
    try reflexivity.
  exfalso. apply acceptable_lt_true in E.
  apply Qeq_bool_iff in Hx, Hy. rewrite Hx, Hy in E.
  exact (Qlt_irrefl w E).
Qed.

Lemma of_weight_sorted_reverse (w : Q) (l : list AcceptableType) :
  of_weight w (sorted_reverse l) = of_weight w l.
Proof.
  induction l as [|x l IH]; [reflexivity |].
  simpl. fold (sorted_reverse l). rewrite of_weight_insert.
  unfold of_weight in *. simpl. now rewrite IH.
Qed.

Variable matches : AcceptableType -> string -> bool.

Lemma find_offered (a : AcceptableType) :
  List.find (matches a) offered
  = if matches a "*/*" then Some "*/*"
    else if matches a MODE_CSV then Some MODE_CSV
    else if matches a MODE_ZINC then Some MODE_ZINC
    else if matches a MODE_JSON then Some MODE_JSON
    else None.
Proof. reflexivity. Qed.

Lemma first_preferred_first_match (l : list AcceptableType) :
  first_preferred matches l = mode_of <$> first_match matches l offered.
Proof.
  induction l as [|a l IH]; [reflexivity |].
  cbn [first_preferred first_match]. rewrite find_offered. unfold preferred.
  destruct (matches a "*/*"); [reflexivity |].
  destruct (matches a MODE_CSV); [reflexivity |].
  destruct (matches a MODE_ZINC); [reflexivity |].
  destruct (matches a MODE_JSON); [reflexivity |].
  exact IH.
Qed.

Lemma first_match_offered (l : list AcceptableType) (t : string) :
  first_match matches l offered = Some t ->
  t = "*/*" \/ t = MODE_CSV \/ t = MODE_ZINC \/ t = MODE_JSON.
Proof.
  induction l as [|a l IH]; [discriminate |].
  cbn [first_match]. rewrite find_offered.
  destruct (matches a "*/*"); [intros [= <-]; auto |].
  destruct (matches a MODE_CSV); [intros [= <-]; auto |].
  destruct (matches a MODE_ZINC); [intros [= <-]; auto |].
  destruct (matches a MODE_JSON); [intros [= <-]; auto |].
  exact IH.
Qed.

Variable Grid : Type.
Variable dump : Grid -> string -> result string.

Lemma dump_response_by_match (accept : list AcceptableType) (grid : Grid)
    (default0 : option string) :
  _dump_response matches Grid dump accept grid default0
  = match mode_of <$> get_best_match matches accept offered with
    | Some m => dumped Grid dump grid m
    | None => fallback Grid dump grid default0
    end.
Proof.
  unfold _dump_response. fold offered.
  destruct (get_best_match matches accept offered) as [t|] eqn:Hm;
    [| reflexivity].
  apply first_match_offered in Hm as [-> | [-> | [-> | ->]]]; reflexivity.
Qed.

(** [_dump_response] in general: the first item, in the order of the
    sort, that selects a format decides. *)
Lemma dump_response_first_preferred (accept : list AcceptableType)
    (grid : Grid) (default0 : option string) :
  _dump_response matches Grid dump accept grid default0
  = match first_preferred matches (sorted_reverse accept) with
    | Some m => dumped Grid dump grid m
    | None => fallback Grid dump grid default0
    end.
Proof.
  now rewrite dump_response_by_match, first_preferred_first_match.
Qed.

End NegotiationFacts.

(** C8, as the code has it.  When the Accept header can be read, its
    acceptable types are tried by descending weight and, at equal weight,
    in the order of the header: the order of trial holds the items of the
    header, with weights that never go up, the items of each weight in
    their header order (so a header of one weight is tried as written).
    The first of them that matches an offered type decides, and among the
    offered types it matches the preference is CSV, then Zinc, then JSON,
    so that a first item matching [*/*] yields CSV.  When no acceptable
    type matches an offered type, the default format is served if one is
    given, and the HTTP error 406 is raised if none is given.  When the
    reading of the header raises, so does the dump step. *)
Theorem C8_format_negotiation
    (matches : ops.AcceptableType -> string -> bool) (Grid : Type)
    (dump : Grid -> string -> result string)
    (parse_accept : string -> result (list ops.AcceptableType))
    (accept : string) (grid : Grid) (default0 : option string) :
  (forall items : list ops.AcceptableType,
     parse_accept accept = Ok items ->
     let tried := ops.sorted_reverse items in
     Permutation tried items
     /\ StronglySorted ops.not_lighter tried
     /\ (forall w : Q, ops.of_weight w tried = ops.of_weight w items)
     /\ (forall w : Q, ops.all_weigh w items = true -> tried = items)
     /\ ops_http.get_best_match matches parse_accept accept ops.offered
        = Ok (ops.first_match matches tried ops.offered)
     /\ ops_http._dump_response matches Grid dump parse_accept accept grid
          default0
        = match ops.first_preferred matches tried with
          | Some m => ops.dumped Grid dump grid m
          | None => ops.fallback Grid dump grid default0
          end
     /\ (forall (any : ops.AcceptableType) (rest : list ops.AcceptableType),
           tried = any :: rest ->
           matches any "*/*" = true ->
           ops_http._dump_response matches Grid dump parse_accept accept grid
             default0
           = ops.dumped Grid dump grid ops.MODE_CSV)
     /\ (ops.first_match matches tried ops.offered = None ->
         ops_http._dump_response matches Grid dump parse_accept accept grid
           None
         = Raise (HttpError 406)))
  /\ (forall e : exn,
        parse_accept accept = Raise e ->
        ops_http._dump_response matches Grid dump parse_accept accept grid
          default0
        = Raise e).
Proof.
  split.
  - intros items Hitems tried.
    split; [apply sorted_reverse_perm |].
    split; [apply sorted_reverse_sorted |].
    split; [intros w; apply of_weight_sorted_reverse |].
    split; [intros w; apply sorted_reverse_same_weight |].
    split; [unfold ops_http.get_best_match; now rewrite Hitems |].
    assert (Hd : forall d : option string,
               ops_http._dump_response matches Grid dump parse_accept accept
                 grid d
               = match ops.first_preferred matches tried with
                 | Some m => ops.dumped Grid dump grid m
                 | None => ops.fallback Grid dump grid d
                 end).
    { intros d. unfold ops_http._dump_response. rewrite Hitems. simpl.
      apply dump_response_first_preferred. }
    split; [apply Hd |]. split.
    + intros any rest Ht Hany. rewrite Hd, Ht.
      cbn [ops.first_preferred]. unfold ops.preferred. now rewrite Hany.
    + intros Hnone. rewrite Hd, first_preferred_first_match, Hnone.
      reflexivity.
  - intros e He. unfold ops_http._dump_response. now rewrite He.
Qed.

(** With a dumper that returns the name of the format, and the reading of
    four headers: [text/zinc;q=0.5, application/json] gives JSON, the
    heavier type, [*/*] gives CSV, [image/png] gives the error 406, and
    [text/csv;q=1.2.3], whose weight is no number, gives the error of the
    reading. *)
Lemma C8_format_negotiation_witness :
  let dump := fun (_ : unit) (mode : string) => Ok mode in
  let parse_accept := fun header : string =>
    if String.eqb header "text/zinc;q=0.5, application/json"
    then Ok [ops.mk_AcceptableType "text/zinc" (1 # 2);
             ops.mk_AcceptableType "application/json" 1]
    else if String.eqb header "*/*"
    then Ok [ops.mk_AcceptableType "*/*" 1]
    else if String.eqb header "image/png"
    then Ok [ops.mk_AcceptableType "image/png" 1]
    else Raise (OtherError "InvalidOperation") in
  ops_http._dump_response ops.pattern_matches unit dump parse_accept
    "text/zinc;q=0.5, application/json" tt None
  = Ok ("application/json; charset=utf-8", "application/json")
  /\ ops_http._dump_response ops.pattern_matches unit dump parse_accept
       "*/*" tt None
     = Ok ("text/csv; charset=utf-8", "text/csv")
  /\ ops_http._dump_response ops.pattern_matches unit dump parse_accept
       "image/png" tt None
     = Raise (HttpError 406)
  /\ ops_http._dump_response ops.pattern_matches unit dump parse_accept
       "text/csv;q=1.2.3" tt None
     = Raise (OtherError "InvalidOperation").
Proof.
  intros dump parse_accept.
  split; [| split; [| split]].
  - destruct (proj1 (C8_format_negotiation ops.pattern_matches unit dump
                       parse_accept "text/zinc;q=0.5, application/json" tt
                       None) _ eq_refl)
      as (_ & _ & _ & _ & _ & H & _).
    exact H.
  - destruct (proj1 (C8_format_negotiation ops.pattern_matches unit dump
                       parse_accept "*/*" tt None) _ eq_refl)
      as (_ & _ & _ & _ & _ & _ & H & _).
    exact (H _ _ eq_refl eq_refl).
  - destruct (proj1 (C8_format_negotiation ops.pattern_matches unit dump
                       parse_accept "image/png" tt None) _ eq_refl)
      as (_ & _ & _ & _ & _ & _ & _ & H).
    exact (H eq_refl).
  - exact (proj2 (C8_format_negotiation ops.pattern_matches unit dump
                    parse_accept "text/csv;q=1.2.3" tt None) _ eq_refl).
Defined.

(** The header [application/json, text/csv]: both types are acceptable
    with the same weight and CSV is among them, yet the response is JSON,
    because the header names JSON first. *)
Lemma C8_counterexample :
  let dump := fun (_ : unit) (mode : string) => Ok mode in
  let accept := [ops.mk_AcceptableType "application/json" 1;
                 ops.mk_AcceptableType "text/csv" 1] in
  ops.all_weigh 1 accept = true
  /\ ops.pattern_matches (ops.mk_AcceptableType "text/csv" 1) ops.MODE_CSV
     = true
  /\ ops.pattern_matches (ops.mk_AcceptableType "application/json" 1)
       ops.MODE_JSON = true
  /\ ops._dump_response ops.pattern_matches unit dump accept tt None
     = Ok ("application/json; charset=utf-8", "application/json")
  /\ ops._dump_response ops.pattern_matches unit dump accept tt None
     <> ops.dumped unit dump tt ops.MODE_CSV.
Proof. repeat split. discriminate. Qed.

(** The same header as text, with its reading. *)
Example json_before_csv_as_text :
  let dump := fun (_ : unit) (mode : string) => Ok mode in
  let parse_accept := fun header : string =>
    if String.eqb header "application/json, text/csv"
    then Ok [ops.mk_AcceptableType "application/json" 1;
             ops.mk_AcceptableType "text/csv" 1]
    else Raise (OtherError "InvalidOperation") in
  ops_http._dump_response ops.pattern_matches unit dump parse_accept
    "application/json, text/csv" tt None
  = Ok ("application/json; charset=utf-8", "application/json").
Proof. reflexivity. Qed.

(** * Further properties of the code *)

(** ** Rows of a CSV grid *)

Section CsvRowFacts.
Import csvparser.

Variable zinc_parse_scalar : string -> string -> result pyvalue.

Let parse_scalar := csvparser.parse_scalar zinc_parse_scalar.
Let parse_cells := csvparser.parse_cells zinc_parse_scalar.

Lemma parse_scalar_raise (scalar version : string) (e : exn) :
  parse_scalar scalar version = Raise e ->
  (first_is "@" scalar = true /\ e = AssertionError)
  \/ (zinc_parse_scalar scalar version = Raise e /\ e <> ZincParseException).
Proof.
  unfold parse_scalar. rewrite parse_scalar_by_kind. unfold kind_of.
  repeat (destruct (String.eqb scalar _); [discriminate |]).
  destruct (first_is "@" scalar).
  - unfold RefOps.__init__.
    destruct (RefOps.re_match_name _); simpl; [discriminate |].
    intros [= <-]. now left.
  - destruct (zinc_parse_scalar scalar version) as [v|e'];
      [discriminate |].
    destruct e'; try discriminate; intros [= <-]; now right.
Qed.

(** One step of the loop over the cells, for a cell that is read. *)
Lemma parse_cells_step (headers : list string) (idx : nat) (c : string)
    (row : list string) (a m : gmap string pyvalue) :
  parse_cells headers idx (c :: row) a = Ok m ->
  exists cell : csvparser.cell,
    parse_scalar c VER_3_0 = Ok cell
    /\ match cell with
       | _EMPTY => parse_cells headers (S idx) row a = Ok m
       | Scalar v =>
         (idx < length headers)%nat
         /\ match cell_value zinc_parse_scalar c with
            | None => parse_cells headers (S idx) row a = Ok m
            | Some w =>
              w = v
              /\ parse_cells headers (S idx) row
                   (<[default "" (headers !! idx) := v]> a) = Ok m
            end
       end.
Proof.
  unfold parse_cells at 1. cbn [csvparser.parse_cells].
  fold parse_scalar. unfold cell_value. fold parse_scalar.
  destruct (parse_scalar c VER_3_0) as [[|v]|e]; simpl; [| | discriminate].
  - intros H. exists _EMPTY. now split.
  - destruct (length headers <=? idx)%nat eqn:Hle; [discriminate |].
    apply Nat.leb_gt in Hle. intros H. exists (Scalar v).
    split; [reflexivity |]. split; [exact Hle |].
    destruct v; try (split; [reflexivity | exact H]). exact H.
Qed.

Lemma parse_cells_keys (headers row : list string) :
  forall (idx : nat) (a m : gmap string pyvalue),
    parse_cells headers idx row a = Ok m ->
    forall k : string, is_Some (m !! k) -> is_Some (a !! k) \/ In k headers.
Proof.
  induction row as [|c row IH]; intros idx a m Hp k Hk.
  - injection Hp as <-. now left.
  - apply parse_cells_step in Hp as (cell & _ & Hcell).
    destruct cell as [|v]; [now apply (IH _ _ _ Hcell) |].
    destruct Hcell as [Hlt Hcell].
    destruct (cell_value zinc_parse_scalar c) as [w|];
      [| now apply (IH _ _ _ Hcell)].
    destruct Hcell as [_ Hcell].
    destruct (IH _ _ _ Hcell k Hk) as [Hin | Hin]; [| now right].
    destruct (lookup_lt_is_Some_2 headers idx Hlt) as [h Hh].
    rewrite Hh in Hin. simpl in Hin.
    destruct (decide (h = k)) as [<- | Hne].
    + right. apply list_elem_of_In. now apply list_elem_of_lookup_2 in Hh.
    + left. now rewrite lookup_insert_ne in Hin.
Qed.

Lemma parse_cells_lookup (headers row : list string) :
  NoDup headers ->
  forall (idx : nat) (a m : gmap string pyvalue),
    parse_cells headers idx row a = Ok m ->
    forall (i : nat) (h : string),
      headers !! i = Some h ->
      m !! h =
      if (i <? idx)%nat then a !! h
      else match row !! (i - idx)%nat ≫= cell_value zinc_parse_scalar with
           | Some v => Some v
           | None => a !! h
           end.
Proof.
  intros Hnd. induction row as [|c row IH]; intros idx a m Hp i h Hi.
  - injection Hp as <-. now destruct (i <? idx)%nat.
  - apply parse_cells_step in Hp as (cell & Hc & Hcell).
    assert (Hskip : parse_cells headers (S idx) row a = Ok m ->
                    cell_value zinc_parse_scalar c = None ->
                    m !! h =
                    if (i <? idx)%nat then a !! h
                    else match (c :: row) !! (i - idx)%nat
                               ≫= cell_value zinc_parse_scalar with
                         | Some v => Some v
                         | None => a !! h
                         end).
    { intros Hrec Hnone. rewrite (IH _ _ _ Hrec i h Hi).
      destruct (i <? idx)%nat eqn:H1.
      - apply Nat.ltb_lt in H1.
        replace (i <? S idx)%nat with true; [reflexivity |].
        symmetry. apply Nat.ltb_lt. lia.
      - apply Nat.ltb_ge in H1.
        destruct (decide (i = idx)) as [-> | Hne].
        + replace (idx <? S idx)%nat with true
            by (symmetry; apply Nat.ltb_lt; lia).
          rewrite Nat.sub_diag. simpl. now rewrite Hnone.
        + replace (i <? S idx)%nat with false
            by (symmetry; apply Nat.ltb_ge; lia).
          replace (i - idx)%nat with (S (i - S idx)) by lia.
          reflexivity. }
    destruct cell as [|v].
    + apply Hskip; [exact Hcell |].
      unfold cell_value. fold parse_scalar. now rewrite Hc.
    + destruct Hcell as [Hlt Hcell].
      destruct (cell_value zinc_parse_scalar c) as [w|] eqn:Hcv;
        [| now apply Hskip].
      destruct Hcell as [-> Hcell].
      destruct (lookup_lt_is_Some_2 headers idx Hlt) as [hx Hx].
      rewrite Hx in Hcell. simpl in Hcell.
      rewrite (IH _ _ _ Hcell i h Hi).
      destruct (decide (i = idx)) as [-> | Hne].
      * assert (hx = h) as -> by congruence.
        replace (idx <? S idx)%nat with true
          by (symmetry; apply Nat.ltb_lt; lia).
        replace (idx <? idx)%nat with false
          by (symmetry; apply Nat.ltb_ge; lia).
        rewrite Nat.sub_diag. simpl. rewrite Hcv.
        now rewrite lookup_insert_eq.
      * assert (hx <> h).
        { intros ->. apply Hne. eapply NoDup_lookup; eassumption. }
        rewrite lookup_insert_ne by assumption.
        destruct (i <? idx)%nat eqn:H1.
        -- apply Nat.ltb_lt in H1.
           replace (i <? S idx)%nat with true; [reflexivity |].
           symmetry. apply Nat.ltb_lt. lia.
        -- apply Nat.ltb_ge in H1.
           replace (i <? S idx)%nat with false
             by (symmetry; apply Nat.ltb_ge; lia).
           replace (i - idx)%nat with (S (i - S idx)) by lia.
           reflexivity.
Qed.

Lemma parse_cells_short (headers row : list string) :
  Forall (fun c => raises (parse_scalar c VER_3_0) = false) row ->
  forall (idx : nat) (a : gmap string pyvalue),
    (idx + length row <= length headers)%nat ->
    exists m : gmap string pyvalue, parse_cells headers idx row a = Ok m.
Proof.
  induction 1 as [|c row Hc _ IH]; intros idx a Hlen.
  - now exists a.
  - simpl in Hlen. unfold parse_cells. cbn [csvparser.parse_cells].
    fold parse_scalar. fold parse_cells.
    destruct (parse_scalar c VER_3_0) as [[|v]|e]; [| | discriminate]; simpl.
    + apply IH. lia.
    + replace (length headers <=? idx)%nat with false
        by (symmetry; apply Nat.leb_gt; lia).
      destruct v; apply IH; lia.
Qed.

End CsvRowFacts.

(** X1.  [parse_scalar] never raises the parse exception itself: when it
    raises, either the cell starts with [@] and the Ref constructor has
    refused the name ([AssertionError]), or the Zinc scalar parser has
    raised something other than its parse exception, which is passed on. *)
Theorem X1_parse_scalar_errors
    (zinc_parse_scalar : string -> string -> result pyvalue)
    (scalar version : string) (e : exn) :
  csvparser.parse_scalar zinc_parse_scalar scalar version = Raise e ->
  e <> ZincParseException
  /\ ((csvparser.first_is "@" scalar = true /\ e = AssertionError)
      \/ (csvparser.first_is "@" scalar = false
          /\ zinc_parse_scalar scalar version = Raise e)).
Proof.
  intros H.
  destruct (csvparser.first_is "@" scalar) eqn:Hat;
    destruct (parse_scalar_raise _ _ _ _ H) as [[Hf ->] | [Hz Hne]];
    try congruence.
  - split; [discriminate | now left].
  - pose proof H as H'. rewrite parse_scalar_by_kind in H'.
    unfold csvparser.kind_of in H'. rewrite Hat in H'.
    repeat (destruct (String.eqb scalar _); [discriminate |]).
    unfold RefOps.__init__ in H'.
    destruct (csvparser.split_space_1 _) as [n v] in H'. simpl in H'.
    destruct (RefOps.re_match_name n); simpl in H'; [discriminate |].
    injection H' as <-. split; [discriminate | now left].
  - split; [exact Hne | now right].
Qed.

(** The cell [@] (an empty name), and the cell [boom] with a Zinc parser
    that fails on it with another error. *)
Lemma X1_parse_scalar_errors_witness :
  let zinc : string -> string -> result pyvalue := fun s _ =>
    if String.eqb s "boom" then Raise TypeError
    else Raise ZincParseException in
  (AssertionError <> ZincParseException
   /\ ((csvparser.first_is "@" "@" = true /\ AssertionError = AssertionError)
       \/ (csvparser.first_is "@" "@" = false
           /\ zinc "@" csvparser.VER_3_0 = Raise AssertionError)))
  /\ (TypeError <> ZincParseException
      /\ ((csvparser.first_is "@" "boom" = true /\ TypeError = AssertionError)
          \/ (csvparser.first_is "@" "boom" = false
              /\ zinc "boom" csvparser.VER_3_0 = Raise TypeError))).
Proof.
  intros zinc. split.
  - apply (X1_parse_scalar_errors zinc "@" csvparser.VER_3_0 AssertionError).
    reflexivity.
  - apply (X1_parse_scalar_errors zinc "boom" csvparser.VER_3_0 TypeError).
    reflexivity.
Defined.

(** X2.  A row that has been read only has keys among the headers. *)
Theorem X2_row_keys_are_headers
    (zinc_parse_scalar : string -> string -> result pyvalue)
    (headers row : list string) (m : gmap string pyvalue) (k : string) :
  csvparser.parse_row zinc_parse_scalar headers row = Ok m ->
  is_Some (m !! k) ->
  In k headers.
Proof.
  intros Hp Hk.
  destruct (parse_cells_keys zinc_parse_scalar headers row 0 ∅ m Hp k Hk)
    as [He | Hin]; [| exact Hin].
  rewrite lookup_empty in He. now destruct He.
Qed.

Lemma X2_row_keys_are_headers_witness : In "c" ["a"; "b"; "c"; "d"].
Proof.
  apply (X2_row_keys_are_headers (fun _ _ => Raise ZincParseException)
           ["a"; "b"; "c"; "d"] [csvparser.check_mark; ""; "true"; "@x"]
           (<["a" := PySingleton MARKER]>
              (<["c" := PyBool true]>
                 {["d" := PyRef (mk_Ref "x" None false)]})) "c").
  - vm_compute. reflexivity.
  - vm_compute. eexists. reflexivity.
Defined.

(** X3.  Under headers that are all different, a row that has been read
    maps each header to what the cell at the same position contributes:
    the value of the cell, or nothing when the row has no cell there, the
    cell is empty or the cell is a Zinc null. *)
Theorem X3_row_lookup
    (zinc_parse_scalar : string -> string -> result pyvalue)
    (headers row : list string) (m : gmap string pyvalue)
    (i : nat) (h : string) :
  NoDup headers ->
  csvparser.parse_row zinc_parse_scalar headers row = Ok m ->
  headers !! i = Some h ->
  m !! h = row !! i ≫= cell_value zinc_parse_scalar.
Proof.
  intros Hnd Hp Hi.
  rewrite (parse_cells_lookup zinc_parse_scalar headers row Hnd 0 ∅ m Hp i h Hi).
  simpl. rewrite Nat.sub_0_r, lookup_empty.
  now destruct (row !! i ≫= cell_value zinc_parse_scalar).
Qed.

Lemma X3_row_lookup_witness :
  (<["a" := PySingleton MARKER]>
     (<["c" := PyBool true]>
        ({["d" := PyRef (mk_Ref "x" None false)]} : gmap string pyvalue)))
    !! "c"
  = [csvparser.check_mark; ""; "true"; "@x"] !! 2%nat
      ≫= cell_value (fun _ _ => Raise ZincParseException).
Proof.
  apply (X3_row_lookup (fun _ _ => Raise ZincParseException)
           ["a"; "b"; "c"; "d"] [csvparser.check_mark; ""; "true"; "@x"]).
  - apply (bool_decide_unpack _). vm_compute. exact I.
  - vm_compute. reflexivity.
  - reflexivity.
Defined.

(** X4.  A row with no more cells than there are headers is read whenever
    each of its cells is: the parse exception only comes from surplus
    cells. *)
Theorem X4_short_row_is_read
    (zinc_parse_scalar : string -> string -> result pyvalue)
    (headers row : list string) :
  (length row <= length headers)%nat ->
  Forall (fun c => raises (csvparser.parse_scalar zinc_parse_scalar c
                             csvparser.VER_3_0) = false) row ->
  exists m : gmap string pyvalue,
    csvparser.parse_row zinc_parse_scalar headers row = Ok m.
Proof.
  intros Hlen Hok.
  now apply (parse_cells_short zinc_parse_scalar headers row Hok 0 ∅).
Qed.

Lemma X4_short_row_is_read_witness :
  exists m : gmap string pyvalue,
    csvparser.parse_row (fun _ _ => Raise ZincParseException)
      ["a"; "b"; "c"] ["true"; "x y"] = Ok m.
Proof.
  apply X4_short_row_is_read.
  - simpl. lia.
  - repeat constructor.
Defined.

(** ** Refs: accepted names, equality after construction, order, hash *)

Section RefMoreFacts.
Import RefOps.

Lemma more_then_dollar_cases (s : string) :
  more_then_dollar s = true ->
  all_name_chars s = true
  \/ exists p : string,
       all_name_chars p = true /\ s = String.append p csvparser.nl.
Proof.
  induction s as [|c s IH]; [now left |].
  cbn [more_then_dollar]. intros [Hd | Hm]%orb_true_iff.
  - right. exists EmptyString. split; [reflexivity |].
    simpl in Hd. destruct s; [| discriminate].
    apply Ascii.eqb_eq in Hd. now subst.
  - apply andb_true_iff in Hm as [Hc Hm].
    destruct (IH Hm) as [Ha | (p & Ha & ->)].
    + left. simpl. now rewrite Hc.
    + right. exists (String c p). split; [simpl; now rewrite Hc | reflexivity].
Qed.

Lemma more_then_dollar_newline (p : string) :
  all_name_chars p = true ->
  more_then_dollar (String.append p csvparser.nl) = true.
Proof.
  induction p as [|c p IH]; [reflexivity |].
  simpl. intros [Hc Hp]%andb_true_iff.
  rewrite Hc, (IH Hp). apply orb_true_r.
Qed.

Lemma re_match_name_iff (s : string) :
  re_match_name s = true
  <-> valid_name s = true
      \/ exists p : string,
           valid_name p = true /\ s = String.append p csvparser.nl.
Proof.
  split.
  - destruct s as [|c s]; [discriminate |].
    simpl. intros [Hc Hm]%andb_true_iff.
    destruct (more_then_dollar_cases s Hm) as [Ha | (p & Ha & ->)].
    + left. unfold valid_name. simpl. now rewrite Hc.
    + right. exists (String c p). split; [| reflexivity].
      unfold valid_name. simpl. now rewrite Hc.
  - intros [Hv | (p & Hv & ->)]; [now apply valid_name_match |].
    unfold valid_name in Hv. destruct p as [|c p]; [discriminate |].
    simpl in *. apply andb_true_iff in Hv as [Hc Hp].
    now rewrite Hc, more_then_dollar_newline.
Qed.

(** The order of strings is transitive. *)
Lemma ascii_compare_N (a b : ascii) :
  Ascii.compare a b = N.compare (N_of_ascii a) (N_of_ascii b).
Proof. reflexivity. Qed.

Lemma ascii_compare_eq (a b : ascii) : Ascii.compare a b = Eq -> a = b.
Proof. apply Ascii.compare_eq_iff. Qed.

Lemma string_compare_lt_trans (s1 : string) :
  forall s2 s3 : string,
    String.compare s1 s2 = Lt -> String.compare s2 s3 = Lt ->
    String.compare s1 s3 = Lt.
Proof.
  induction s1 as [|a s1 IH]; intros [|b s2] [|c s3]; simpl;
    try discriminate; try reflexivity.
  destruct (Ascii.compare a b) eqn:Hab; try discriminate;
    destruct (Ascii.compare b c) eqn:Hbc; try discriminate; intros H1 H2.
  - apply ascii_compare_eq in Hab, Hbc. subst.
    replace (Ascii.compare c c) with Eq
      by (symmetry; rewrite ascii_compare_N; apply N.compare_refl).
    now apply (IH s2).
  - apply ascii_compare_eq in Hab. subst. now rewrite Hbc.
  - apply ascii_compare_eq in Hbc. subst. now rewrite Hab.
  - rewrite ascii_compare_N in Hab, Hbc. rewrite ascii_compare_N.
    rewrite N.compare_lt_iff in Hab, Hbc.
    replace (N_of_ascii a ?= N_of_ascii c)%N with Lt; [reflexivity |].
    symmetry. apply N.compare_lt_iff. lia.
Qed.

Lemma string_ltb_leb (s1 s2 : string) :
  String.ltb s1 s2 = negb (String.leb s2 s1).
Proof.
  unfold String.ltb, String.leb. rewrite (String.compare_antisym s1 s2).
  now destruct (String.compare s2 s1).
Qed.

Lemma string_compare_refl (s : string) : String.compare s s = Eq.
Proof.
  induction s as [|c s IH]; [reflexivity |].
  simpl. rewrite ascii_compare_N, N.compare_refl. exact IH.
Qed.

Lemma string_ltb_irrefl (s : string) : String.ltb s s = false.
Proof. unfold String.ltb. now rewrite string_compare_refl. Qed.

End RefMoreFacts.

(** X5.  The names [Ref.__init__] accepts are exactly the valid names and
    the valid names followed by one line break; every other name fails
    with [AssertionError]. *)
Theorem X5_Ref_accepted_names (name0 : string) (value0 : option string)
    (has_value0 : bool) :
  ((RefOps.valid_name name0 = true
    \/ exists p : string,
         RefOps.valid_name p = true
         /\ name0 = String.append p csvparser.nl) ->
   RefOps.__init__ name0 value0 has_value0
   = Ok (mk_Ref name0 value0 (has_value0 || RefOps.is_not_None value0)))
  /\ (~ (RefOps.valid_name name0 = true
         \/ exists p : string,
              RefOps.valid_name p = true
              /\ name0 = String.append p csvparser.nl) ->
      RefOps.__init__ name0 value0 has_value0 = Raise AssertionError).
Proof.
  unfold RefOps.__init__. split; intros H.
  - apply re_match_name_iff in H. now rewrite H.
  - destruct (RefOps.re_match_name name0) eqn:Hm; [| reflexivity].
    exfalso. apply H. now apply re_match_name_iff.
Qed.

Lemma X5_Ref_accepted_names_witness :
  RefOps.__init__ (String.append "abc" csvparser.nl) None false
  = Ok (mk_Ref (String.append "abc" csvparser.nl) None false)
  /\ RefOps.__init__ (String.append "a b" csvparser.nl) None false
     = Raise AssertionError.
Proof.
  split.
  - apply (proj1 (X5_Ref_accepted_names
                    (String.append "abc" csvparser.nl) None false)).
    right. exists "abc". split; reflexivity.
  - apply (proj2 (X5_Ref_accepted_names
                    (String.append "a b" csvparser.nl) None false)).
    intros [H | (p & Hv & H)]; [discriminate |].
    destruct p as [|c [|d p]]; try discriminate H.
    injection H as <- <- _. discriminate Hv.
Defined.

Section RefBuiltFacts.
Import RefOps.

Lemma init_Ok (name0 : string) (value0 : option string) (hv : bool)
    (r : Ref) :
  __init__ name0 value0 hv = Ok r ->
  r = mk_Ref name0 value0 (hv || is_not_None value0).
Proof.
  unfold __init__. destruct (re_match_name name0); simpl; congruence.
Qed.

End RefBuiltFacts.

(** X6.  A Ref built by the constructor has [has_value] set whenever it
    has a display; two Refs built by the constructor are equal iff the
    names, the displays and the resulting [has_value] flags agree, so that
    two Refs built without an explicit flag are equal iff their names and
    displays are. *)
Theorem X6_Ref_built_eq (n1 n2 : string) (v1 v2 : option string)
    (h1 h2 : bool) (a b : Ref) :
  RefOps.__init__ n1 v1 h1 = Ok a ->
  RefOps.__init__ n2 v2 h2 = Ok b ->
  (RefOps.is_not_None (value a) = true -> has_value a = true)
  /\ (RefOps.__eq__ a (PyRef b) = Truth true
      <-> n1 = n2 /\ v1 = v2
          /\ (h1 || RefOps.is_not_None v1) = (h2 || RefOps.is_not_None v2))
  /\ (h1 = false -> h2 = false ->
      (RefOps.__eq__ a (PyRef b) = Truth true <-> n1 = n2 /\ v1 = v2)).
Proof.
  intros Ha%init_Ok Hb%init_Ok. subst a b. split; [| split].
  - simpl. intros ->. apply orb_true_r.
  - rewrite Ref_eq_true. unfold RefOps.key. simpl.
    split; [intros [= -> -> ->]; auto | intros (-> & -> & ->); reflexivity].
  - intros -> ->. rewrite Ref_eq_true. unfold RefOps.key. simpl.
    split; [intros [= -> _ ->]; auto | intros (-> & ->); reflexivity].
Qed.

Lemma X6_Ref_built_eq_witness :
  RefOps.__eq__ (mk_Ref "abc" (Some "Boiler") true)
                (PyRef (mk_Ref "abc" (Some "Boiler") true)) = Truth true.
Proof.
  apply (proj2 (proj2 (X6_Ref_built_eq "abc" "abc" (Some "Boiler")
                         (Some "Boiler") false false _ _ eq_refl eq_refl))
           eq_refl eq_refl).
  split; reflexivity.
Defined.

(** X7.  The order of Refs is the order of their names: [<] is
    irreflexive and transitive, [a < b] holds iff [b <= a] does not, [<=]
    is total, two Refs that are [<=] each other have the same name, and
    equal Refs are [<=] and [>=] each other. *)
Theorem X7_Ref_order (a b c : Ref) :
  RefOps.__lt__ a a = false
  /\ (RefOps.__lt__ a b = true -> RefOps.__lt__ b c = true ->
      RefOps.__lt__ a c = true)
  /\ RefOps.__lt__ a b = negb (RefOps.__le__ b a)
  /\ RefOps.__gt__ a b = negb (RefOps.__le__ a b)
  /\ RefOps.__ge__ a b = negb (RefOps.__lt__ a b)
  /\ (RefOps.__le__ a b = true \/ RefOps.__le__ b a = true)
  /\ (RefOps.__le__ a b = true -> RefOps.__le__ b a = true ->
      name a = name b)
  /\ (RefOps.__eq__ a (PyRef b) = Truth true ->
      RefOps.__le__ a b = true /\ RefOps.__ge__ a b = true).
Proof.
  unfold RefOps.__lt__, RefOps.__le__, RefOps.__gt__, RefOps.__ge__.
  split; [apply string_ltb_irrefl |].
  split.
  { unfold String.ltb. intros H1 H2.
    destruct (String.compare (name a) (name b)) eqn:E1; try discriminate.
    destruct (String.compare (name b) (name c)) eqn:E2; try discriminate.
    now rewrite (string_compare_lt_trans _ _ _ E1 E2). }
  split; [apply string_ltb_leb |].
  split; [apply string_ltb_leb |].
  split; [rewrite string_ltb_leb; now rewrite negb_involutive |].
  split; [apply String.leb_total |].
  split; [apply String.leb_antisym |].
  intros Heq%Ref_eq_true. injection Heq as Hn _ _. rewrite Hn.
  unfold String.leb. now rewrite string_compare_refl.
Qed.

Lemma X7_Ref_order_witness :
  RefOps.__lt__ (mk_Ref "a" None false) (mk_Ref "c" (Some "x") true) = true
  /\ name (mk_Ref "b" None false) = name (mk_Ref "b" (Some "x") true).
Proof.
  pose proof (X7_Ref_order (mk_Ref "a" None false) (mk_Ref "b" None false)
                (mk_Ref "c" (Some "x") true)) as (_ & Htrans & _).
  pose proof (X7_Ref_order (mk_Ref "b" None false)
                (mk_Ref "b" (Some "x") true) (mk_Ref "b" None false))
    as (_ & _ & _ & _ & _ & _ & Hanti & _).
  split.
  - apply Htrans; reflexivity.
  - apply Hanti; reflexivity.
Defined.

(** X8.  A Ref built with its name as its display hashes to 1, whatever
    the name: in [hash(name) ^ hash(value) ^ hash(has_value)] the first two
    cancel and [has_value] is true. *)
Theorem X8_Ref_hash_name_as_display (hash_str : string -> Z) (hash_None : Z)
    (name0 : string) (has_value0 : bool) (r : Ref) :
  RefOps.__init__ name0 (Some name0) has_value0 = Ok r ->
  RefOps.__hash__ hash_str hash_None r = 1.
Proof.
  intros ->%init_Ok. unfold RefOps.__hash__. simpl.
  rewrite Z.lxor_nilpotent, orb_true_r. reflexivity.
Qed.

Lemma X8_Ref_hash_name_as_display_witness :
  RefOps.__hash__ (fun s => Z.of_nat (String.length s)) 7
    (mk_Ref "abc" (Some "abc") true) = 1.
Proof.
  apply (X8_Ref_hash_name_as_display _ 7 "abc" false). reflexivity.
Defined.

(** X9.  For a latitude and a longitude that are no NaN, [hash] of a
    Coordinate does not change when the two are exchanged, and it is 0
    whenever they are the same float; the same holds of the method
    [__hash__]. *)
Theorem X9_Coordinate_hash_collisions (hash_float : float -> Z)
    (hash_nan : Coordinate -> CoordinateOps.attribute -> Z)
    (lat long : float) :
  PrimFloat.is_nan lat = false ->
  PrimFloat.is_nan long = false ->
  CoordinateOps.hash hash_float hash_nan (mk_Coordinate lat long)
  = CoordinateOps.hash hash_float hash_nan (mk_Coordinate long lat)
  /\ CoordinateOps.hash hash_float hash_nan (mk_Coordinate lat lat) = 0
  /\ CoordinateOps.__hash__ hash_float hash_nan (mk_Coordinate lat long)
     = CoordinateOps.__hash__ hash_float hash_nan (mk_Coordinate long lat)
  /\ CoordinateOps.__hash__ hash_float hash_nan (mk_Coordinate lat lat) = 0.
Proof.
  intros Hlat Hlong.
  unfold CoordinateOps.hash, CoordinateOps.__hash__,
    CoordinateOps.hash_attribute. simpl. rewrite Hlat, Hlong.
  rewrite Z.lxor_nilpotent, (Z.lxor_comm (hash_float lat)).
  repeat split.
Qed.

(** [Coordinate(1.0, -2.0)] and [Coordinate(-2.0, 1.0)] both hash to -2,
    and [Coordinate(1.0, 1.0)] hashes to 0. *)
Lemma X9_Coordinate_hash_collisions_witness :
  CoordinateOps.hash CoordinateOps.hash_float_sample (fun _ _ => 5)
    (mk_Coordinate 1 (-2))
  = CoordinateOps.hash CoordinateOps.hash_float_sample (fun _ _ => 5)
      (mk_Coordinate (-2) 1)
  /\ CoordinateOps.hash CoordinateOps.hash_float_sample (fun _ _ => 5)
       (mk_Coordinate 1 1) = 0.
Proof.
  pose proof (X9_Coordinate_hash_collisions CoordinateOps.hash_float_sample
                (fun _ _ => 5) 1 (-2) eq_refl eq_refl) as (H1 & H2 & _).
  split; [exact H1 | exact H2].
Defined.

(** ** Comparisons of [str], [Uri] and [Bin] objects, in general *)

(** X10.  Between any two objects of the classes [str], [Uri] and [Bin],
    no comparison raises; [!=] and the four order comparisons compare the
    texts, whatever the classes; and [==] compares the texts unless one
    object is a [Uri] and the other a [Bin], in which case it is the
    identity of the objects. *)
Theorem X10_string_like_comparisons (v w : StrTypes.pystr) :
  (forall op, exists b, StrTypes.do_richcompare v w op = Ok b)
  /\ StrTypes.py_ne v w = Ok (negb (String.eqb (StrTypes.text v) (StrTypes.text w)))
  /\ StrTypes.do_richcompare v w Py_LT
     = Ok (String.ltb (StrTypes.text v) (StrTypes.text w))
  /\ StrTypes.do_richcompare v w Py_LE
     = Ok (String.leb (StrTypes.text v) (StrTypes.text w))
  /\ StrTypes.do_richcompare v w Py_GT
     = Ok (String.ltb (StrTypes.text w) (StrTypes.text v))
  /\ StrTypes.do_richcompare v w Py_GE
     = Ok (String.leb (StrTypes.text w) (StrTypes.text v))
  /\ StrTypes.py_eq v w
     = Ok match StrTypes.ob_type v, StrTypes.ob_type w with
          | StrTypes.cls_Uri, StrTypes.cls_Bin
          | StrTypes.cls_Bin, StrTypes.cls_Uri => StrTypes.py_is v w
          | _, _ => String.eqb (StrTypes.text v) (StrTypes.text w)
          end.
Proof.
  destruct v as [c i s], w as [d j t].
  assert (Hsym : String.eqb t s = String.eqb s t) by apply String.eqb_sym.
  split.
  - intros op. destruct c, d, op; eexists; reflexivity.
  - unfold StrTypes.py_ne, StrTypes.py_eq.
    destruct c, d; cbn; rewrite ?Hsym; repeat split; reflexivity.
Qed.

(** ** [Qty.__cmp__] *)

Section FloatFacts.

Lemma SFeqb_refl_not_nan (f : SpecFloat.spec_float) :
  f <> SpecFloat.S754_nan -> SpecFloat.SFeqb f f = true.
Proof.
  unfold SpecFloat.SFeqb.
  destruct f as [s | s | | s m e]; simpl; intros H; try congruence;
    try destruct s; rewrite ?Z.compare_refl, ?Pos.compare_cont_refl;
    reflexivity.
Qed.

Lemma is_nan_spec (x : float) :
  is_nan x = true -> Prim2SF x = SpecFloat.S754_nan.
Proof.
  unfold is_nan. rewrite FloatAxioms.eqb_spec.
  destruct (Prim2SF x) eqn:E; try reflexivity; intros H;
    rewrite SFeqb_refl_not_nan in H; discriminate.
Qed.

(** A NaN is neither equal to nor below nor above any float. *)
Lemma nan_unordered (x y : float) :
  is_nan x = true ->
  PrimFloat.eqb x y = false /\ PrimFloat.eqb y x = false
  /\ PrimFloat.ltb x y = false /\ PrimFloat.ltb y x = false.
Proof.
  intros Hx%is_nan_spec.
  rewrite !FloatAxioms.eqb_spec, !FloatAxioms.ltb_spec, Hx.
  unfold SpecFloat.SFeqb, SpecFloat.SFltb.
  now destruct (Prim2SF y).
Qed.

End FloatFacts.

Section QtyCmpFacts.
Import QtyOps QtyCmp.

Lemma cmp_same_unit (a b : Qty) :
  qty_unit a = qty_unit b ->
  __cmp__ a (inl b)
  = Ok (if PrimFloat.eqb (qty_value a) (qty_value b) then 0
        else if PrimFloat.ltb (qty_value a) (qty_value b) then -1 else 1).
Proof.
  intros Hu. unfold __cmp__.
  change (QtyOps.__eq__ a (inl b)) with (compare Py_EQ a b).
  change (QtyOps.__lt__ a (inl b)) with (compare Py_LT a b).
  rewrite !(compare_same_unit _ a b Hu). simpl.
  destruct (PrimFloat.eqb (qty_value a) (qty_value b)); [reflexivity |].
  now destruct (PrimFloat.ltb (qty_value a) (qty_value b)).
Qed.

Lemma cmp_units_differ (a b : Qty) :
  qty_unit a <> qty_unit b -> __cmp__ a (inl b) = Raise TypeError.
Proof.
  intros Hu. unfold __cmp__.
  change (QtyOps.__eq__ a (inl b)) with (compare Py_EQ a b).
  now rewrite (compare_units_differ Py_EQ a b Hu).
Qed.

End QtyCmpFacts.

(** X11.  [Qty.__cmp__] on two quantities raises [TypeError] when the
    units differ; with equal units it is 0 when the values compare equal,
    -1 when the first is below the second and 1 otherwise; so with a NaN
    on either side it is 1 in both directions. *)
Theorem X11_Qty_cmp (a b : Qty) :
  (qty_unit a <> qty_unit b -> QtyCmp.__cmp__ a (inl b) = Raise TypeError)
  /\ (qty_unit a = qty_unit b ->
      QtyCmp.__cmp__ a (inl b)
      = Ok (if PrimFloat.eqb (qty_value a) (qty_value b) then 0
            else if PrimFloat.ltb (qty_value a) (qty_value b) then -1
            else 1))
  /\ (qty_unit a = qty_unit b ->
      is_nan (qty_value a) = true \/ is_nan (qty_value b) = true ->
      QtyCmp.__cmp__ a (inl b) = Ok 1 /\ QtyCmp.__cmp__ b (inl a) = Ok 1).
Proof.
  split; [apply cmp_units_differ |]. split; [apply cmp_same_unit |].
  intros Hu Hnan.
  rewrite (cmp_same_unit a b Hu), (cmp_same_unit b a (eq_sym Hu)).
  destruct Hnan as [Hn | Hn].
  - destruct (nan_unordered (qty_value a) (qty_value b) Hn)
      as (-> & -> & -> & ->). now split.
  - destruct (nan_unordered (qty_value b) (qty_value a) Hn)
      as (-> & -> & -> & ->). now split.
Qed.

Lemma X11_Qty_cmp_witness :
  QtyCmp.__cmp__ (mk_Qty 1 (Some "m")) (inl (mk_Qty 1 (Some "s")))
  = Raise TypeError
  /\ QtyCmp.__cmp__ (mk_Qty 1 (Some "m")) (inl (mk_Qty 2 (Some "m")))
     = Ok (-1)
  /\ QtyCmp.__cmp__ (mk_Qty nan None) (inl (mk_Qty 2 None)) = Ok 1
  /\ QtyCmp.__cmp__ (mk_Qty 2 None) (inl (mk_Qty nan None)) = Ok 1.
Proof.
  split; [| split].
  - apply (proj1 (X11_Qty_cmp (mk_Qty 1 (Some "m")) (mk_Qty 1 (Some "s")))).
    discriminate.
  - apply (proj1 (proj2 (X11_Qty_cmp (mk_Qty 1 (Some "m"))
                           (mk_Qty 2 (Some "m"))))).
    reflexivity.
  - apply (proj2 (proj2 (X11_Qty_cmp (mk_Qty nan None) (mk_Qty 2 None))));
      [reflexivity | left; reflexivity].
Defined.

(** ** XStr: hexadecimal text and back *)

Section XStrCodecFacts.
Import XStrCodec.

Lemma fromhex_byte (b : Byte.byte) (s : string) :
  fromhex (String.append (byte_to_hex b) s)
  = match fromhex s with
    | Ok bs => Ok (b :: bs)
    | Raise e => Raise e
    end.
Proof. destruct b; reflexivity. Qed.

Lemma fromhex_b2a_hex (b : list Byte.byte) : fromhex (b2a_hex b) = Ok b.
Proof.
  induction b as [|x b IH]; [reflexivity |].
  cbn [b2a_hex]. now rewrite fromhex_byte, IH.
Qed.

Variable b64decode : string -> result (list Byte.byte).
Variable b2a_base64 : list Byte.byte -> string.

Lemma hex_init_Ok (s : string) (x : XStr) :
  XStrOps.__init__ fromhex b64decode "hex" s = Ok x ->
  exists b : list Byte.byte,
    fromhex s = Ok b /\ x = mk_XStr "hex" (data_bytearray b).
Proof.
  unfold XStrOps.__init__. simpl.
  destruct (fromhex s) as [b|e]; simpl; [| discriminate].
  intros [= <-]. now exists b.
Qed.

Lemma hex_init_b2a_hex (b : list Byte.byte) :
  XStrOps.__init__ fromhex b64decode "hex" (b2a_hex b)
  = Ok (mk_XStr "hex" (data_bytearray b)).
Proof. unfold XStrOps.__init__. simpl. now rewrite fromhex_b2a_hex. Qed.

Lemma other_encoding_round_trip (e s : string) :
  e <> "hex" -> e <> "b64" ->
  XStrOps.__init__ fromhex b64decode e s = Ok (mk_XStr e (data_str s))
  /\ data_to_string b2a_base64 (mk_XStr e (data_str s)) = Ok (data_str s).
Proof.
  intros H1%String.eqb_neq H2%String.eqb_neq.
  unfold XStrOps.__init__, data_to_string. simpl. now rewrite H1, H2.
Qed.

End XStrCodecFacts.

(** X12.  Hexadecimal XStr values round-trip: the text [data_to_string]
    gives for bytes is read back by the constructor as the same bytes; an
    XStr built from any hexadecimal text that is accepted is rebuilt, equal,
    from its own [data_to_string]; and for an encoding other than [hex] and
    [b64] the text is kept and returned unchanged. *)
Theorem X12_XStr_hex_round_trip
    (b64decode : string -> result (list Byte.byte))
    (b2a_base64 : list Byte.byte -> string) :
  (forall b : list Byte.byte,
     XStrCodec.data_to_string b2a_base64 (mk_XStr "hex" (data_bytearray b))
     = Ok (data_str (XStrCodec.b2a_hex b))
     /\ XStrOps.__init__ XStrCodec.fromhex b64decode "hex"
          (XStrCodec.b2a_hex b)
        = Ok (mk_XStr "hex" (data_bytearray b)))
  /\ (forall (s : string) (x : XStr),
        XStrOps.__init__ XStrCodec.fromhex b64decode "hex" s = Ok x ->
        exists t : string,
          XStrCodec.data_to_string b2a_base64 x = Ok (data_str t)
          /\ XStrOps.__init__ XStrCodec.fromhex b64decode "hex" t = Ok x)
  /\ (forall e s : string,
        e <> "hex" -> e <> "b64" ->
        XStrOps.__init__ XStrCodec.fromhex b64decode e s
        = Ok (mk_XStr e (data_str s))
        /\ XStrCodec.data_to_string b2a_base64 (mk_XStr e (data_str s))
           = Ok (data_str s)).
Proof.
  split; [| split].
  - intros b. split; [reflexivity | apply hex_init_b2a_hex].
  - intros s x (b & _ & ->)%hex_init_Ok.
    exists (XStrCodec.b2a_hex b). split; [reflexivity |].
    apply hex_init_b2a_hex.
  - intros e s. apply other_encoding_round_trip.
Qed.

(** The text [DE AD be ef], with a space and both cases, becomes
    [deadbeef]. *)
Lemma X12_XStr_hex_round_trip_witness :
  let b64decode := fun _ : string =>
    Raise (OtherError "binascii.Error") : result (list Byte.byte) in
  let b2a_base64 := fun _ : list Byte.byte => "" in
  exists t : string,
    XStrCodec.data_to_string b2a_base64
      (mk_XStr "hex"
         (data_bytearray [Byte.xde; Byte.xad; Byte.xbe; Byte.xef]))
    = Ok (data_str t)
    /\ XStrOps.__init__ XStrCodec.fromhex b64decode "hex" t
       = Ok (mk_XStr "hex"
               (data_bytearray [Byte.xde; Byte.xad; Byte.xbe; Byte.xef])).
Proof.
  intros b64decode b2a_base64.
  apply (proj1 (proj2 (X12_XStr_hex_round_trip b64decode b2a_base64))
           "DE AD be ef").
  reflexivity.
Defined.

Example hex_samples :
  XStrCodec.fromhex "DE AD be ef"
  = Ok [Byte.xde; Byte.xad; Byte.xbe; Byte.xef]
  /\ XStrCodec.b2a_hex [Byte.xde; Byte.xad; Byte.xbe; Byte.xef] = "deadbeef"
  /\ XStrCodec.fromhex "abc" = Raise (OtherError "ValueError")
  /\ XStrCodec.fromhex "a b" = Raise (OtherError "ValueError")
  /\ XStrCodec.fromhex "zz" = Raise (OtherError "ValueError")
  /\ XStrCodec.fromhex "" = Ok [].
Proof. repeat split. Qed.

(** ** Negotiation: what is served, and the weights *)

Section NegotiationMoreFacts.
Import ops.

Variable matches : AcceptableType -> string -> bool.

Lemma acceptable_lt_asym (x y : AcceptableType) :
  acceptable_lt x y = true -> acceptable_lt y x = false.
Proof.
  unfold acceptable_lt. intros H%negb_true_iff.
  apply negb_false_iff, Qle_bool_iff.
  apply Qlt_le_weak, Qnot_le_lt. intros Hle%Qle_bool_iff. congruence.
Qed.

Lemma In_insert_sorted (x y : AcceptableType) (l : list AcceptableType) :
  In y (insert_sorted x l) -> y = x \/ In y l.
Proof.
  induction l as [|z l IH]; simpl.
  - intros [<- | []]. now left.
  - destruct (acceptable_lt x z); simpl.
    + intros [<- | H]; [right; now left |].
      destruct (IH H); [now left | right; now right].
    + intros [<- | H]; [now left | now right].
Qed.

Lemma In_sorted_reverse (y : AcceptableType) (l : list AcceptableType) :
  In y (sorted_reverse l) -> In y l.
Proof.
  induction l as [|x l IH]; [trivial |].
  simpl. fold (sorted_reverse l).
  intros [-> | H]%In_insert_sorted; [now left | right; now apply IH].
Qed.

Lemma insert_heaviest (a : AcceptableType) (l : list AcceptableType) :
  forallb (fun x => acceptable_lt x a) l = true ->
  insert_sorted a (sorted_reverse l) = a :: sorted_reverse l.
Proof.
  intros Hall.
  destruct (sorted_reverse l) as [|y l'] eqn:E; [reflexivity |].
  simpl. replace (acceptable_lt a y) with false; [reflexivity |].
  symmetry. apply acceptable_lt_asym.
  assert (Hy : In y l) by (apply In_sorted_reverse; rewrite E; now left).
  rewrite forallb_forall in Hall. now apply Hall.
Qed.

Lemma sorted_reverse_heaviest (a : AcceptableType)
    (l1 l2 : list AcceptableType) :
  forallb (fun x => acceptable_lt x a) (l1 ++ l2) = true ->
  sorted_reverse (l1 ++ a :: l2) = a :: sorted_reverse (l1 ++ l2).
Proof.
  induction l1 as [|x l1 IH]; intros Hall.
  - simpl. fold (sorted_reverse l2). now apply insert_heaviest.
  - simpl in Hall. apply andb_true_iff in Hall as [Hx Hall].
    simpl. fold (sorted_reverse (l1 ++ a :: l2)).
    fold (sorted_reverse (l1 ++ l2)).
    rewrite (IH Hall). simpl. now rewrite Hx.
Qed.

Variable Grid : Type.
Variable dump : Grid -> string -> result string.

Lemma best_match_offered (accept : list AcceptableType) (t : string) :
  get_best_match matches accept offered = Some t ->
  t = "*/*" \/ t = MODE_CSV \/ t = MODE_ZINC \/ t = MODE_JSON.
Proof. apply first_match_offered. Qed.

Lemma dumped_Ok (grid : Grid) (m ct body : string) :
  dumped Grid dump grid m = Ok (ct, body) ->
  ct = String.append m "; charset=utf-8" /\ dump grid m = Ok body.
Proof.
  unfold dumped. destruct (dump grid m) as [b|e]; simpl; [| discriminate].
  intros [= <- <-]. now split.
Qed.

Lemma dump_response_served (accept : list AcceptableType) (grid : Grid)
    (default0 : option string) (ct body : string) :
  _dump_response matches Grid dump accept grid default0 = Ok (ct, body) ->
  exists m : string,
    ct = String.append m "; charset=utf-8"
    /\ dump grid m = Ok body
    /\ (m = MODE_CSV \/ m = MODE_ZINC \/ m = MODE_JSON
        \/ (get_best_match matches accept offered = None
            /\ default0 = Some m /\ m <> "")).
Proof.
  rewrite dump_response_by_match.
  destruct (get_best_match matches accept offered) as [t|] eqn:Hm; simpl.
  - intros [-> Hd]%dumped_Ok. exists (mode_of t).
    split; [reflexivity |]. split; [exact Hd |].
    apply best_match_offered in Hm as [-> | [-> | [-> | ->]]];
      cbn; auto.
  - unfold fallback. destruct default0 as [d|]; [| discriminate].
    simpl. destruct (String.eqb d "") eqn:Hd; simpl; [discriminate |].
    intros [-> Hdump]%dumped_Ok. exists d.
    split; [reflexivity |]. split; [exact Hdump |].
    right. right. right. repeat split. now apply String.eqb_neq.
Qed.

End NegotiationMoreFacts.

(** X13.  Whatever the Accept header, a response of [_dump_response] is
    the dump of the grid in CSV, Zinc or JSON, or in the default format
    when no offered type is acceptable, with the content type of that
    format followed by the charset: the wildcard never becomes the content
    type. *)
Theorem X13_served_format
    (matches : ops.AcceptableType -> string -> bool) (Grid : Type)
    (dump : Grid -> string -> result string)
    (accept : list ops.AcceptableType) (grid : Grid)
    (default0 : option string) (ct body : string) :
  ops._dump_response matches Grid dump accept grid default0 = Ok (ct, body) ->
  exists m : string,
    ct = String.append m "; charset=utf-8"
    /\ dump grid m = Ok body
    /\ (m = ops.MODE_CSV \/ m = ops.MODE_ZINC \/ m = ops.MODE_JSON
        \/ (ops.get_best_match matches accept ops.offered = None
            /\ default0 = Some m /\ m <> "")).
Proof. apply dump_response_served. Qed.

Lemma X13_served_format_witness :
  exists m : string,
    "text/csv; charset=utf-8" = String.append m "; charset=utf-8"
    /\ (fun (_ : unit) (mode : string) => Ok mode) tt m = Ok "text/csv"
    /\ (m = ops.MODE_CSV \/ m = ops.MODE_ZINC \/ m = ops.MODE_JSON
        \/ (ops.get_best_match ops.pattern_matches
              [ops.mk_AcceptableType "*/*" 1] ops.offered = None
            /\ None = Some m /\ m <> "")).
Proof.
  apply (X13_served_format ops.pattern_matches unit
           (fun _ mode => Ok mode) [ops.mk_AcceptableType "*/*" 1] tt None).
  reflexivity.
Defined.

(** X14.  The weights are honoured: an acceptable type heavier than all
    the others of the header is tried first, wherever it stands; if it
    matches an available type that type is the answer, else the answer is
    that of the header without it. *)
Theorem X14_heaviest_first
    (matches : ops.AcceptableType -> string -> bool)
    (a : ops.AcceptableType) (l1 l2 : list ops.AcceptableType)
    (available_types : list string) :
  forallb (fun x => ops.acceptable_lt x a) (l1 ++ l2) = true ->
  ops.get_best_match matches (l1 ++ a :: l2) available_types
  = match List.find (matches a) available_types with
    | Some t => Some t
    | None => ops.get_best_match matches (l1 ++ l2) available_types
    end.
Proof.
  intros Hall. unfold ops.get_best_match.
  now rewrite (sorted_reverse_heaviest a l1 l2 Hall).
Qed.

(** [text/csv;q=0.5, application/json, text/zinc;q=0.8] gives JSON. *)
Lemma X14_heaviest_first_witness :
  ops.get_best_match ops.pattern_matches
    ([ops.mk_AcceptableType "text/csv" (1 # 2)]
     ++ ops.mk_AcceptableType "application/json" 1
     :: [ops.mk_AcceptableType "text/zinc" (4 # 5)]) ops.offered
  = Some "application/json".
Proof.
  refine (eq_trans
    (X14_heaviest_first ops.pattern_matches
       (ops.mk_AcceptableType "application/json" 1)
       [ops.mk_AcceptableType "text/csv" (1 # 2)]
       [ops.mk_AcceptableType "text/zinc" (4 # 5)] ops.offered _) _);
    reflexivity.
Defined.

(** ** Responses and the handling of exceptions *)

Section ResponseFacts.
Import ops_http.

Variable matches : ops.AcceptableType -> string -> bool.
Variable Grid : Type.
Variable dump : Grid -> string -> result string.
Variable parse_accept : string -> result (list ops.AcceptableType).
Variable error_grid : string -> result Grid.
Variable format_exc : exn -> string.
Variable HttpError_msg : exn -> string.

Let _format_response :=
  ops_http._format_response matches Grid dump parse_accept.
Let _manage_exception :=
  ops_http._manage_exception matches Grid dump parse_accept error_grid
    format_exc HttpError_msg.

(** The text of the Accept header of a request, as [_format_response]
    takes it. *)
Let accept_of (headers : gmap string string) : string :=
  default ops.DEFAULT_MIME_TYPE (headers !! "Accept").

Lemma format_response_unread (headers : gmap string string)
    (grid : Grid) (code : Z) (msg : string) (default0 : option string)
    (e : exn) :
  parse_accept (accept_of headers) = Raise e ->
  _format_response headers grid code msg default0 = Raise e.
Proof.
  intros He.
  unfold _format_response, ops_http._format_response,
    ops_http._dump_response.
  fold (accept_of headers). now rewrite He.
Qed.

Lemma format_response_negotiated (headers : gmap string string)
    (grid : Grid) (code : Z) (msg : string) (default0 : option string)
    (accept : list ops.AcceptableType) (m : string) :
  parse_accept (accept_of headers) = Ok accept ->
  negotiated_mode matches accept = Some m ->
  _format_response headers grid code msg default0
  = (body ← dump grid m; Ok (mk_response code msg (response_headers m) body)).
Proof.
  unfold negotiated_mode. intros Ha Hm.
  unfold _format_response, ops_http._format_response,
    ops_http._dump_response.
  fold (accept_of headers). rewrite Ha. simpl.
  rewrite dump_response_by_match, Hm. unfold ops.dumped.
  now destruct (dump grid m).
Qed.

Lemma format_response_default (headers : gmap string string)
    (grid : Grid) (code : Z) (msg d : string)
    (accept : list ops.AcceptableType) :
  parse_accept (accept_of headers) = Ok accept ->
  negotiated_mode matches accept = None ->
  d <> "" ->
  _format_response headers grid code msg (Some d)
  = (body ← dump grid d; Ok (mk_response code msg (response_headers d) body)).
Proof.
  unfold negotiated_mode. intros Ha Hm Hd%String.eqb_neq.
  unfold _format_response, ops_http._format_response,
    ops_http._dump_response.
  fold (accept_of headers). rewrite Ha. simpl.
  rewrite dump_response_by_match, Hm. simpl. rewrite Hd. simpl.
  unfold ops.dumped. now destruct (dump grid d).
Qed.

Lemma format_response_not_acceptable (headers : gmap string string)
    (grid : Grid) (code : Z) (msg : string)
    (accept : list ops.AcceptableType) :
  parse_accept (accept_of headers) = Ok accept ->
  negotiated_mode matches accept = None ->
  _format_response headers grid code msg None = Raise (HttpError 406).
Proof.
  unfold negotiated_mode. intros Ha Hm.
  unfold _format_response, ops_http._format_response,
    ops_http._dump_response.
  fold (accept_of headers). rewrite Ha. simpl.
  now rewrite dump_response_by_match, Hm.
Qed.


Lemma manage_exception_status (headers : gmap string string) (ex : exn)
    (stage : string) (g : Grid) :
  error_grid (if String.eqb stage "dev" then format_exc ex else "") = Ok g ->
  _manage_exception headers ex stage
  = _format_response headers g (status_code_of ex)
      (status_msg_of HttpError_msg ex)
      (Some ops._DEFAULT_MIME_TYPE_WITH_METADATA).
Proof.
  intros Hg.
  unfold _manage_exception, ops_http._manage_exception. rewrite Hg. simpl.
  fold _format_response. now destruct ex.
Qed.

Lemma manage_exception_served (headers : gmap string string) (ex : exn)
    (stage : string) (g : Grid) (accept : list ops.AcceptableType) :
  error_grid (if String.eqb stage "dev" then format_exc ex else "") = Ok g ->
  parse_accept (accept_of headers) = Ok accept ->
  _manage_exception headers ex stage
  = (let m := default ops.MODE_ZINC (negotiated_mode matches accept) in
     body ← dump g m;
     Ok (mk_response (status_code_of ex) (status_msg_of HttpError_msg ex)
           (response_headers m) body)).
Proof.
  intros Hg Ha. rewrite (manage_exception_status _ _ _ _ Hg).
  destruct (negotiated_mode matches accept) as [m|] eqn:Hm.
  - now rewrite (format_response_negotiated _ _ _ _ _ accept m Ha Hm).
  - now rewrite (format_response_default _ _ _ _ _ accept Ha Hm).
Qed.

Lemma manage_exception_unread (headers : gmap string string) (ex : exn)
    (stage : string) (g : Grid) (e : exn) :
  error_grid (if String.eqb stage "dev" then format_exc ex else "") = Ok g ->
  parse_accept (accept_of headers) = Raise e ->
  _manage_exception headers ex stage = Raise e.
Proof.
  intros Hg He. rewrite (manage_exception_status _ _ _ _ Hg).
  now apply format_response_unread.
Qed.

Lemma negotiated_mode_supported (accept : list ops.AcceptableType) :
  let m := default ops.MODE_ZINC (negotiated_mode matches accept) in
  m = ops.MODE_CSV \/ m = ops.MODE_ZINC \/ m = ops.MODE_JSON.
Proof.
  unfold negotiated_mode.
  destruct (ops.get_best_match matches accept ops.offered) as [t|] eqn:Hm;
    simpl; [| auto].
  apply first_match_offered in Hm as [-> | [-> | [-> | ->]]]; cbn; auto.
Qed.


End ResponseFacts.

Section OperationFacts.
Import ops_http.

Variable matches : ops.AcceptableType -> string -> bool.
Variable Grid : Type.
Variable dump : Grid -> string -> result string.
Variable parse_accept : string -> result (list ops.AcceptableType).
Variable error_grid : string -> result Grid.
Variable format_exc : exn -> string.
Variable HttpError_msg : exn -> string.
Variable Provider : Type.
Variable get_singleton_provider : result Provider.
Variable provider_about : Provider -> string -> result (option Grid).

Let about :=
  ops_http.about matches Grid dump parse_accept error_grid format_exc
    HttpError_msg Provider get_singleton_provider provider_about.
Let about_try :=
  ops_http.about_try matches Grid dump parse_accept Provider
    get_singleton_provider provider_about.
Let _manage_exception :=
  ops_http._manage_exception matches Grid dump parse_accept error_grid
    format_exc HttpError_msg.


Lemma about_caught (request : HaystackHttpRequest) (stage : string)
    (ex : exn) :
  about_try request stage = Raise ex ->
  is_Exception ex = true ->
  about request stage = _manage_exception (rq_headers request) ex stage.
Proof.
  intros Ht He. unfold about, ops_http.about.
  fold about_try. now rewrite Ht, He.
Qed.



Lemma about_try_no_Host (request : HaystackHttpRequest) (stage : string)
    (p : Provider) :
  get_singleton_provider = Ok p ->
  rq_headers request !! "Host" = None ->
  about_try request stage = Raise (OtherError "KeyError").
Proof.
  intros Hp Hh. unfold about_try, ops_http.about_try, get_Host.
  now rewrite Hp, Hh.
Qed.

Lemma about_try_not_acceptable (request : HaystackHttpRequest)
    (stage : string) (p : Provider) (host : string) (g : Grid)
    (accept : list ops.AcceptableType) :
  get_singleton_provider = Ok p ->
  rq_headers request !! "Host" = Some host ->
  provider_about p
    (if String.prefix "localhost:" host
     then String.append "http://" (String.append host "/")
     else String.append "https://"
            (String.append host (String.append "/" stage)))
  = Ok (Some g) ->
  parse_accept (default ops.DEFAULT_MIME_TYPE
                  (rq_headers request !! "Accept")) = Ok accept ->
  negotiated_mode matches accept = None ->
  about_try request stage = Raise (HttpError 406).
Proof.
  intros Hp Hh Hg Ha Hn. unfold about_try, ops_http.about_try, get_Host.
  rewrite Hp, Hh. simpl. rewrite Hg. simpl.
  now apply (format_response_not_acceptable _ _ _ _ _ _ _ _ accept).
Qed.

End OperationFacts.

Section OpsOperationFacts.
Import ops_http.

Variable matches : ops.AcceptableType -> string -> bool.
Variable Grid : Type.
Variable dump : Grid -> string -> result string.
Variable parse_accept : string -> result (list ops.AcceptableType).
Variable error_grid : string -> result Grid.
Variable format_exc : exn -> string.
Variable HttpError_msg : exn -> string.
Variable Provider : Type.
Variable get_singleton_provider : result Provider.
Variable provider_ops : Provider -> result (option Grid).

Let ops_try :=
  ops_http.ops_try matches Grid dump parse_accept Provider
    get_singleton_provider provider_ops.
Let _manage_exception :=
  ops_http._manage_exception matches Grid dump parse_accept error_grid
    format_exc HttpError_msg.





End OpsOperationFacts.

(** X15.  When the Accept header of the request can be read,
    [_manage_exception] answers with the error grid in the format
    negotiated for it, or in Zinc when nothing is acceptable, so always in
    CSV, Zinc or JSON; the status is the code and message of an
    [HttpError], and 400 and [ERROR] for any other exception; it then
    fails only when [dump] fails on the error grid.  When the reading of
    the Accept header raises, [_manage_exception] raises that exception
    itself. *)
Theorem X15_manage_exception
    (matches : ops.AcceptableType -> string -> bool) (Grid : Type)
    (dump : Grid -> string -> result string)
    (parse_accept : string -> result (list ops.AcceptableType))
    (error_grid : string -> result Grid) (format_exc : exn -> string)
    (HttpError_msg : exn -> string)
    (headers : gmap string string) (ex : exn) (stage : string) (g : Grid) :
  error_grid (if String.eqb stage "dev" then format_exc ex else "") = Ok g ->
  (forall accept : list ops.AcceptableType,
     parse_accept (default ops.DEFAULT_MIME_TYPE (headers !! "Accept"))
     = Ok accept ->
     let m := default ops.MODE_ZINC (negotiated_mode matches accept) in
     (m = ops.MODE_CSV \/ m = ops.MODE_ZINC \/ m = ops.MODE_JSON)
     /\ ops_http._manage_exception matches Grid dump parse_accept error_grid
          format_exc HttpError_msg headers ex stage
        = (body ← dump g m;
           Ok (ops_http.mk_response (status_code_of ex)
                 (status_msg_of HttpError_msg ex) (response_headers m) body)))
  /\ (forall e : exn,
        parse_accept (default ops.DEFAULT_MIME_TYPE (headers !! "Accept"))
        = Raise e ->
        ops_http._manage_exception matches Grid dump parse_accept error_grid
          format_exc HttpError_msg headers ex stage
        = Raise e).
Proof.
  intros Hg. split.
  - intros accept Ha m. split.
    + apply negotiated_mode_supported.
    + now apply manage_exception_served.
  - intros e He. now apply (manage_exception_unread _ _ _ _ _ _ _ _ _ _ g).
Qed.

(** A request that accepts [image/png] only, failing with the HTTP error
    404: the error grid is served in Zinc with the status 404.  The same
    failure with the Accept header [text/csv;q=1.2.3], whose weight is no
    number: the error of the reading is raised. *)
Lemma X15_manage_exception_witness :
  let parse_accept := fun header : string =>
    if String.eqb header "image/png"
    then Ok [ops.mk_AcceptableType "image/png" 1]
    else Raise (OtherError "InvalidOperation") in
  ops_http._manage_exception ops.pattern_matches unit
    (fun _ mode => Ok mode) parse_accept
    (fun _ => Ok tt) (fun _ => "trace") (fun _ => "Not found")
    {["Accept" := "image/png"]} (HttpError 404) "dev"
  = Ok (ops_http.mk_response 404 "Not found"
          (response_headers "text/zinc") "text/zinc")
  /\ ops_http._manage_exception ops.pattern_matches unit
       (fun _ mode => Ok mode) parse_accept
       (fun _ => Ok tt) (fun _ => "trace") (fun _ => "Not found")
       {["Accept" := "text/csv;q=1.2.3"]} (HttpError 404) "dev"
     = Raise (OtherError "InvalidOperation").
Proof.
  intros parse_accept. split.
  - refine (eq_trans
      (proj2 (proj1 (X15_manage_exception ops.pattern_matches unit
                (fun _ mode => Ok mode) parse_accept
                (fun _ => Ok tt) (fun _ => "trace") (fun _ => "Not found")
                {["Accept" := "image/png"]} (HttpError 404) "dev" tt
                eq_refl) _ eq_refl)) _).
    reflexivity.
  - exact (proj2 (X15_manage_exception ops.pattern_matches unit
                    (fun _ mode => Ok mode) parse_accept
                    (fun _ => Ok tt) (fun _ => "trace") (fun _ => "Not found")
                    {["Accept" := "text/csv;q=1.2.3"]} (HttpError 404) "dev"
                    tt eq_refl) _ eq_refl).
Defined.



(** X17.  When the provider has answered [about] with a grid but no
    offered format is acceptable to the request, whose Accept header has
    been read, the response is the error grid in Zinc with the status
    406. *)
Theorem X17_about_not_acceptable
    (matches : ops.AcceptableType -> string -> bool) (Grid : Type)
    (dump : Grid -> string -> result string)
    (parse_accept : string -> result (list ops.AcceptableType))
    (error_grid : string -> result Grid) (format_exc : exn -> string)
    (HttpError_msg : exn -> string) (Provider : Type)
    (get_singleton_provider : result Provider)
    (provider_about : Provider -> string -> result (option Grid))
    (request : ops_http.HaystackHttpRequest) (stage : string)
    (p : Provider) (host : string) (g eg : Grid)
    (accept : list ops.AcceptableType) :
  get_singleton_provider = Ok p ->
  ops_http.rq_headers request !! "Host" = Some host ->
  provider_about p
    (if String.prefix "localhost:" host
     then String.append "http://" (String.append host "/")
     else String.append "https://"
            (String.append host (String.append "/" stage)))
  = Ok (Some g) ->
  parse_accept (default ops.DEFAULT_MIME_TYPE
                  (ops_http.rq_headers request !! "Accept")) = Ok accept ->
  negotiated_mode matches accept = None ->
  error_grid (if String.eqb stage "dev" then format_exc (HttpError 406)
              else "") = Ok eg ->
  ops_http.about matches Grid dump parse_accept error_grid format_exc
    HttpError_msg Provider get_singleton_provider provider_about
    request stage
  = (body ← dump eg ops.MODE_ZINC;
     Ok (ops_http.mk_response 406 (HttpError_msg (HttpError 406))
           (response_headers ops.MODE_ZINC) body)).
Proof.
  intros Hp Hh Hg Ha Hn He.
  rewrite (about_caught matches Grid dump parse_accept error_grid
             format_exc HttpError_msg Provider get_singleton_provider
             provider_about request stage (HttpError 406)).
  - rewrite (manage_exception_served _ _ _ _ _ _ _ _ _ _ _ accept He Ha).
    now rewrite Hn.
  - now apply (about_try_not_acceptable _ _ _ _ _ _ _ _ _ p host g accept).
  - reflexivity.
Qed.

Lemma X17_about_not_acceptable_witness :
  let parse_accept := fun header : string =>
    if String.eqb header "image/png"
    then Ok [ops.mk_AcceptableType "image/png" 1]
    else Raise (OtherError "InvalidOperation") in
  ops_http.about ops.pattern_matches unit (fun _ mode => Ok mode)
    parse_accept (fun _ => Ok tt)
    (fun _ => "") (fun _ => "Accept 'image/png' not supported") unit
    (Ok tt) (fun _ _ => Ok (Some tt))
    (ops_http.mk_request "" ∅ false
       (<["Host" := "localhost:3000"]> {["Accept" := "image/png"]})) "dev"
  = Ok (ops_http.mk_response 406 "Accept 'image/png' not supported"
          (response_headers "text/zinc") "text/zinc").
Proof.
  intros parse_accept.
  refine (eq_trans
    (X17_about_not_acceptable ops.pattern_matches unit
       (fun _ mode => Ok mode) parse_accept (fun _ => Ok tt)
       (fun _ => "") (fun _ => "Accept 'image/png' not supported") unit
       (Ok tt) (fun _ _ => Ok (Some tt))
       (ops_http.mk_request "" ∅ false
          (<["Host" := "localhost:3000"]> {["Accept" := "image/png"]}))
       "dev" tt "localhost:3000" tt tt
       [ops.mk_AcceptableType "image/png" 1] _ _ _ _ _ _) _);
    reflexivity.
Defined.

(** X18.  A request without a [Host] header, once the provider has been
    obtained: the [KeyError] is caught.  When the Accept header of the
    request can be read, [about] answers with the status 400 and the
    message [ERROR], the error grid being served in the negotiated format
    or in Zinc; when the reading of the Accept header raises, [about]
    raises that exception. *)
Theorem X18_about_without_Host
    (matches : ops.AcceptableType -> string -> bool) (Grid : Type)
    (dump : Grid -> string -> result string)
    (parse_accept : string -> result (list ops.AcceptableType))
    (error_grid : string -> result Grid) (format_exc : exn -> string)
    (HttpError_msg : exn -> string) (Provider : Type)
    (get_singleton_provider : result Provider)
    (provider_about : Provider -> string -> result (option Grid))
    (request : ops_http.HaystackHttpRequest) (stage : string)
    (p : Provider) (eg : Grid) :
  get_singleton_provider = Ok p ->
  ops_http.rq_headers request !! "Host" = None ->
  error_grid (if String.eqb stage "dev"
              then format_exc (OtherError "KeyError") else "") = Ok eg ->
  (forall accept : list ops.AcceptableType,
     parse_accept (default ops.DEFAULT_MIME_TYPE
                     (ops_http.rq_headers request !! "Accept")) = Ok accept ->
     ops_http.about matches Grid dump parse_accept error_grid format_exc
       HttpError_msg Provider get_singleton_provider provider_about
       request stage
     = (let m := default ops.MODE_ZINC (negotiated_mode matches accept) in
        body ← dump eg m;
        Ok (ops_http.mk_response 400 "ERROR" (response_headers m) body)))
  /\ (forall e : exn,
        parse_accept (default ops.DEFAULT_MIME_TYPE
                        (ops_http.rq_headers request !! "Accept")) = Raise e ->
        ops_http.about matches Grid dump parse_accept error_grid format_exc
          HttpError_msg Provider get_singleton_provider provider_about
          request stage
        = Raise e).
Proof.
  intros Hp Hh He.
  assert (Habout :
    ops_http.about matches Grid dump parse_accept error_grid format_exc
      HttpError_msg Provider get_singleton_provider provider_about
      request stage
    = ops_http._manage_exception matches Grid dump parse_accept error_grid
        format_exc HttpError_msg (ops_http.rq_headers request)
        (OtherError "KeyError") stage).
  { apply about_caught; [| reflexivity].
    now apply (about_try_no_Host _ _ _ _ _ _ _ _ _ p). }
  rewrite Habout. split.
  - intros accept Ha.
    now rewrite (manage_exception_served _ _ _ _ _ _ _ _ _ _ _ accept He Ha).
  - intros e Hr.
    now apply (manage_exception_unread _ _ _ _ _ _ _ _ _ _ eg).
Qed.

(** A request that accepts JSON, and one whose Accept header is
    [text/csv;q=1.2.3], with a weight that is no number. *)
Lemma X18_about_without_Host_witness :
  let parse_accept := fun header : string =>
    if String.eqb header "application/json"
    then Ok [ops.mk_AcceptableType "application/json" 1]
    else Raise (OtherError "InvalidOperation") in
  ops_http.about ops.pattern_matches unit (fun _ mode => Ok mode)
    parse_accept (fun _ => Ok tt)
    (fun _ => "") (fun _ => "") unit (Ok tt) (fun _ _ => Ok (Some tt))
    (ops_http.mk_request "" ∅ false {["Accept" := "application/json"]})
    "prod"
  = Ok (ops_http.mk_response 400 "ERROR"
          (response_headers "application/json") "application/json")
  /\ ops_http.about ops.pattern_matches unit (fun _ mode => Ok mode)
       parse_accept (fun _ => Ok tt)
       (fun _ => "") (fun _ => "") unit (Ok tt) (fun _ _ => Ok (Some tt))
       (ops_http.mk_request "" ∅ false {["Accept" := "text/csv;q=1.2.3"]})
       "prod"
     = Raise (OtherError "InvalidOperation").
Proof.
  intros parse_accept. split.
  - refine (eq_trans
      (proj1 (X18_about_without_Host ops.pattern_matches unit
         (fun _ mode => Ok mode) parse_accept
         (fun _ => Ok tt) (fun _ => "") (fun _ => "") unit (Ok tt)
         (fun _ _ => Ok (Some tt))
         (ops_http.mk_request "" ∅ false {["Accept" := "application/json"]})
         "prod" tt tt eq_refl eq_refl eq_refl) _ eq_refl) _).
    reflexivity.
  - exact (proj2 (X18_about_without_Host ops.pattern_matches unit
         (fun _ mode => Ok mode) parse_accept
         (fun _ => Ok tt) (fun _ => "") (fun _ => "") unit (Ok tt)
         (fun _ _ => Ok (Some tt))
         (ops_http.mk_request "" ∅ false {["Accept" := "text/csv;q=1.2.3"]})
         "prod" tt tt eq_refl eq_refl eq_refl) _ eq_refl).
Defined.

(** ** Identifiers of the GraphQL layer *)

Section FilterIdFacts.
Import graphql_model.

Lemma valid_name_no_at (n : string) :
  RefOps.valid_name n = true -> String.prefix "@" n = false.
Proof.
  unfold RefOps.valid_name. destruct n as [|c n]; [discriminate |].
  intros Hv. simpl in Hv. apply andb_true_iff in Hv as [Hc _].
  cbn -[ascii_dec].
  destruct (ascii_dec "@" c) as [<- |]; [discriminate | reflexivity].
Qed.

Lemma filter_id_bare (n : string) :
  String.prefix "r:" n = false -> String.prefix "@" n = false ->
  _filter_id n = n.
Proof. unfold _filter_id. now intros -> ->. Qed.

Lemma filter_id_at (n : string) : _filter_id (String "@" n) = n.
Proof. now destruct n. Qed.

Lemma filter_id_r (n : string) : _filter_id (String "r" (String ":" n)) = n.
Proof. now destruct n. Qed.

End FilterIdFacts.

(** X19.  For a valid Ref name [n], the identifiers [@n] and [r:n] are
    both resolved to the Ref named [n], and so is [n] itself unless it
    starts with [r:], in which case these two characters are taken off.
    Only one prefix is removed. *)
Theorem X19_filter_id (n : string) :
  RefOps.valid_name n = true ->
  RefOps.__init__ (graphql_model._filter_id (String "@" n)) None false
  = Ok (mk_Ref n None false)
  /\ RefOps.__init__
       (graphql_model._filter_id (String "r" (String ":" n))) None false
     = Ok (mk_Ref n None false)
  /\ (String.prefix "r:" n = false ->
      RefOps.__init__ (graphql_model._filter_id n) None false
      = Ok (mk_Ref n None false))
  /\ (String.prefix "r:" n = true ->
      graphql_model._filter_id n = graphql_model.drop_chars 2 n)
  /\ graphql_model._filter_id (String "@" (String "r" (String ":" n)))
     = String "r" (String ":" n)
  /\ graphql_model._filter_id (String "r" (String ":" (String "@" n)))
     = String "@" n.
Proof.
  intros Hv.
  split.
  { rewrite filter_id_at. now apply init_valid. }
  split.
  { rewrite filter_id_r. now apply init_valid. }
  split.
  { intros Hr. rewrite filter_id_bare; [now apply init_valid | exact Hr |].
    now apply valid_name_no_at. }
  split; [unfold graphql_model._filter_id; now intros -> |].
  split; [apply filter_id_at | apply filter_id_r].
Qed.

Lemma X19_filter_id_witness :
  RefOps.__init__ (graphql_model._filter_id "@site-1") None false
  = Ok (mk_Ref "site-1" None false)
  /\ RefOps.__init__ (graphql_model._filter_id "site-1") None false
     = Ok (mk_Ref "site-1" None false)
  /\ graphql_model._filter_id "r:x" = "x".
Proof.
  pose proof (X19_filter_id "site-1" eq_refl) as (H1 & _ & H3 & _).
  pose proof (X19_filter_id "r:x" eq_refl) as (_ & _ & _ & H4 & _).
  split; [exact H1 |]. split; [exact (H3 eq_refl) | exact (H4 eq_refl)].
Defined.

(** ** The choice of a content encoding *)

Section EncodingFacts.
Import encodings.

Variable _get_weight : string -> result Q.
Variable strip : string -> string.

Let __init__ := encodings.__init__ _get_weight.
Let collect := encodings.collect _get_weight strip.

Lemma more_encoding_chars_cases (s : string) :
  more_encoding_chars s = true ->
  all_encoding_chars s = true
  \/ exists p : string,
       all_encoding_chars p = true /\ s = String.append p csvparser.nl.
Proof.
  induction s as [|c s IH]; [now left |].
  cbn [more_encoding_chars]. intros [Hd | Hm]%orb_true_iff.
  - right. exists EmptyString. split; [reflexivity |].
    simpl in Hd. destruct s; [| discriminate].
    apply Ascii.eqb_eq in Hd. now subst.
  - apply andb_true_iff in Hm as [Hc Hm].
    destruct (IH Hm) as [Ha | (p & Ha & ->)].
    + left. simpl. now rewrite Hc.
    + right. exists (String c p). split; [simpl; now rewrite Hc | reflexivity].
Qed.

Lemma more_encoding_chars_newline (p : string) :
  all_encoding_chars p = true ->
  more_encoding_chars (String.append p csvparser.nl) = true.
Proof.
  induction p as [|c p IH]; [reflexivity |].
  simpl. intros [Hc Hp]%andb_true_iff.
  rewrite Hc, (IH Hp). apply orb_true_r.
Qed.

Lemma more_encoding_chars_all (p : string) :
  all_encoding_chars p = true -> more_encoding_chars p = true.
Proof.
  induction p as [|c p IH]; [reflexivity |].
  simpl. intros [Hc Hp]%andb_true_iff.
  rewrite Hc, (IH Hp). apply orb_true_r.
Qed.

(** What the validity pattern accepts: the texts of letters and hyphens,
    and those texts followed by one line break. *)
Lemma valid_encoding_type_iff (s : string) :
  _valid_encoding_type s = true
  <-> letters_and_hyphens s = true
      \/ exists p : string,
           letters_and_hyphens p = true /\ s = String.append p csvparser.nl.
Proof.
  split.
  - destruct s as [|c s]; [discriminate |].
    simpl. intros [Hc Hm]%andb_true_iff.
    destruct (more_encoding_chars_cases s Hm) as [Ha | (p & Ha & ->)].
    + left. now rewrite Hc.
    + right. exists (String c p). split; [| reflexivity].
      simpl. now rewrite Hc.
  - intros [Hv | (p & Hv & ->)].
    + destruct s as [|c s]; [discriminate |].
      simpl in *. apply andb_true_iff in Hv as [Hc Hs].
      now rewrite Hc, more_encoding_chars_all.
    + destruct p as [|c p]; [discriminate |].
      simpl in *. apply andb_true_iff in Hv as [Hc Hp].
      now rewrite Hc, more_encoding_chars_newline.
Qed.

Lemma init_Ok_type (raw : string) (a : _AcceptableEncoding) :
  __init__ raw = Ok a ->
  encoding_type a = (split_1 ";" raw).1
  /\ _valid_encoding_type (encoding_type a) = true.
Proof.
  unfold __init__, encodings.__init__.
  destruct (split_1 ";" raw) as [t rest]. simpl.
  destruct (_valid_encoding_type t) eqn:Hv; simpl; [| discriminate].
  destruct (_get_weight _); simpl; [| discriminate].
  intros [= <-]. now split.
Qed.

Lemma init_invalid_type (raw : string) :
  _valid_encoding_type (split_1 ";" raw).1 = false ->
  __init__ raw = Raise (OtherError "ValueError").
Proof.
  unfold __init__, encodings.__init__.
  destruct (split_1 ";" raw) as [t rest]. simpl. now intros ->.
Qed.

Lemma collect_In (raws : list string) :
  forall (l : list _AcceptableEncoding) (a : _AcceptableEncoding),
    collect raws = Ok l -> In a l ->
    exists raw : string, In raw raws /\ __init__ (strip raw) = Ok a.
Proof.
  induction raws as [|raw raws IH]; intros l a Hc Ha.
  - injection Hc as <-. destruct Ha.
  - unfold collect in Hc. cbn [encodings.collect] in Hc.
    fold collect in Hc. fold __init__ in Hc.
    destruct (__init__ (strip raw)) as [b|e] eqn:Hi.
    + destruct (collect raws) as [l'|] eqn:Hl; simpl in Hc; [| discriminate].
      injection Hc as <-. destruct Ha as [<- | Ha].
      * exists raw. split; [now left | exact Hi].
      * destruct (IH l' a eq_refl Ha) as (r & Hr & Hri).
        exists r. split; [now right | exact Hri].
    + destruct (is_ValueError e); [| discriminate].
      destruct (IH l a Hc Ha) as (r & Hr & Hri).
      exists r. split; [now right | exact Hri].
Qed.

Lemma collect_all_invalid (raws : list string) :
  Forall (fun raw => _valid_encoding_type (split_1 ";" (strip raw)).1 = false)
    raws ->
  collect raws = Ok [].
Proof.
  induction 1 as [|raw raws Hraw _ IH]; [reflexivity |].
  unfold collect. cbn [encodings.collect]. fold collect. fold __init__.
  now rewrite (init_invalid_type _ Hraw).
Qed.

Lemma first_match_In (matches : ops.AcceptableType -> string -> bool)
    (l : list ops.AcceptableType) (available : list string) (t : string) :
  ops.first_match matches l available = Some t ->
  In t available /\ exists a, In a l /\ matches a t = true.
Proof.
  induction l as [|a l IH]; [discriminate |].
  cbn [ops.first_match].
  destruct (find (matches a) available) as [u|] eqn:Hf.
  - intros [= <-]. apply find_some in Hf as [Hin Hm].
    split; [exact Hin |]. exists a. split; [now left | exact Hm].
  - intros H. destruct (IH H) as (Hin & b & Hb & Hm).
    split; [exact Hin |]. exists b. split; [now right | exact Hm].
Qed.

End EncodingFacts.

(** X20.  When [get_best_encoding_match] names an encoding, it is one of
    the available encodings, and it is the type of an item of the header
    (what stands before the first [;] of the stripped item), possibly
    followed by a line break.  That type has passed the validity pattern:
    it is made of one or more letters and hyphens, possibly followed by
    one line break, which the [$] of the pattern lets through. *)
Theorem X20_best_encoding_is_available
    (_get_weight : string -> result Q) (strip : string -> string)
    (header : string) (available_encoding : list string) (t : string) :
  encodings.get_best_encoding_match _get_weight strip header
    available_encoding = Ok (Some t) ->
  In t available_encoding
  /\ exists raw : string,
       let type0 := (encodings.split_1 ";" (strip raw)).1 in
       In raw (csvparser.split_on "," header)
       /\ encodings._valid_encoding_type type0 = true
       /\ (encodings.letters_and_hyphens type0 = true
           \/ exists p : string,
                encodings.letters_and_hyphens p = true
                /\ type0 = String.append p csvparser.nl)
       /\ (t = type0 \/ t = String.append type0 csvparser.nl).
Proof.
  unfold encodings.get_best_encoding_match, encodings._parse_header.
  destruct (encodings.collect _ _ _) as [l|] eqn:Hc; simpl; [| discriminate].
  intros [= H]. apply first_match_In in H as (Hin & a & Ha & Hm).
  split; [exact Hin |].
  apply In_sorted_reverse in Ha.
  destruct (collect_In _ _ _ _ _ Hc Ha) as (raw & Hraw & Hi).
  apply init_Ok_type in Hi as [Ht Hv].
  exists raw. cbv zeta. split; [exact Hraw |]. rewrite <- Ht.
  split; [exact Hv |].
  split; [now apply valid_encoding_type_iff |].
  unfold encodings.matches in Hm.
  apply orb_true_iff in Hm as [Hm | Hm]; apply String.eqb_eq in Hm; auto.
Qed.

(** The header [br;q=0.5,gzip] with the encodings [gzip] and [br]
    available: the weights read are 0.5 for the tail [q=0.5] and 1 for
    the item without a tail, the items have no blanks to strip, and the
    answer is [gzip], the heavier item. *)
Lemma X20_best_encoding_is_available_witness :
  let _get_weight := fun tail : string =>
    if String.eqb tail "q=0.5" then Ok (1 # 2)%Q else Ok 1%Q in
  encodings.get_best_encoding_match _get_weight (fun s => s)
    "br;q=0.5,gzip" ["gzip"; "br"] = Ok (Some "gzip")
  /\ In "gzip" ["gzip"; "br"]
  /\ exists raw : string,
       let type0 := (encodings.split_1 ";" raw).1 in
       In raw (csvparser.split_on "," "br;q=0.5,gzip")
       /\ encodings._valid_encoding_type type0 = true
       /\ (encodings.letters_and_hyphens type0 = true
           \/ exists p : string,
                encodings.letters_and_hyphens p = true
                /\ type0 = String.append p csvparser.nl)
       /\ ("gzip" = type0 \/ "gzip" = String.append type0 csvparser.nl).
Proof.
  intros _get_weight. split; [reflexivity |].
  apply (X20_best_encoding_is_available _get_weight (fun s => s)
           "br;q=0.5,gzip" ["gzip"; "br"] "gzip").
  reflexivity.
Defined.

(** X21.  A header none of whose items has a valid encoding type selects
    nothing and raises nothing, whatever its weights: in particular the
    wildcard [*] is not a valid type, and neither is the empty item. *)
Theorem X21_invalid_encodings_select_nothing
    (_get_weight : string -> result Q) (strip : string -> string)
    (header : string) (available_encoding : list string) :
  Forall (fun raw =>
            encodings._valid_encoding_type
              (encodings.split_1 ";" (strip raw)).1 = false)
    (csvparser.split_on "," header) ->
  encodings.get_best_encoding_match _get_weight strip header
    available_encoding = Ok None.
Proof.
  intros H. unfold encodings.get_best_encoding_match, encodings._parse_header.
  now rewrite (collect_all_invalid _get_weight strip _ H).
Qed.

Lemma X21_invalid_encodings_select_nothing_witness :
  encodings.get_best_encoding_match (fun _ => Raise TypeError) (fun s => s)
    "*;q=0.1,,gzip2" ["gzip"; "br"] = Ok None.
Proof.
  apply X21_invalid_encodings_select_nothing.
  repeat constructor.
Defined.
